(** * HappyRobot carrier / load service: a shallow embedding of [app.py]

    The two request handlers of [app.py], [validate_mc_number] and
    [get_load_details], are embedded as total Rocq functions.  The outside
    world they talk to (the module-level API key, the FMCSA registry reached
    through [requests.get], the [loads.csv] file read through pandas) is an
    explicit argument, and the outbound calls a handler makes are returned as
    a log next to its result, so that "no call is made" is a statement about
    that log.  Python exceptions are values of the type [exn]; a handler
    either raises an [HTTPException] or returns its response model. *)

From Stdlib Require Import String Ascii List ZArith Lia Bool.
From Stdlib Require Import DecimalString.
From Stdlib.Floats Require Import SpecFloat.
Import ListNotations.

Set Warnings "-register-all".

Local Open Scope string_scope.
Local Open Scope Z_scope.

(** ** Python strings

    A [str] is modelled by a Rocq [string] holding its UTF-8 encoding, the
    way Rocq stores a string literal: an ASCII character is one byte below
    128, any other character is a lead byte followed by continuation bytes.
    [Str.chars] splits a text into its characters.  The character
    functions are Python's on the ASCII range; for every other character
    they read the Unicode table of the runtime, [classify].  Operations that
    search for ASCII text ([replace], [startswith]) work on the bytes, which
    is the same as working on the characters since no ASCII byte occurs
    inside the encoding of another character.  A text that is not valid
    UTF-8 is not the encoding of a [str]; its stray bytes are grouped the
    same way and pass through the functions unchanged. *)

(** What the Unicode database says of a character outside ASCII: it is a
    digit ([isdigit] holds), or whitespace ([isspace] holds), or it has an
    upper-case form different from itself (given by its first byte and the
    bytes after it), or none of these.  Digits and whitespace have no case. *)
Inductive uclass : Type :=
| UDigit
| USpace
| UCased (head : ascii) (tail : string)
| UOther.

(** The Unicode table of the runtime, on the UTF-8 bytes of a character. *)
Class Unicode : Type := {
  classify : string -> uclass
}.

Module Str.

Definition code (c : ascii) : N := N_of_ascii c.

(** The byte is an ASCII character. *)
Definition is_ascii (c : ascii) : bool := (code c <? 128)%N.

(** The byte is a continuation byte of UTF-8, [10xxxxxx]. *)
Definition is_continuation (c : ascii) : bool :=
  (128 <=? code c)%N && (code c <? 192)%N.

(** [c.isdigit()] for an ASCII character. *)
Definition ascii_isdigit (c : ascii) : bool :=
  (48 <=? code c)%N && (code c <=? 57)%N.

(** [c.isspace()] for an ASCII character: tab, LF, VT, FF, CR, the four
    separators FS, GS, RS, US, and the space. *)
Definition ascii_isspace (c : ascii) : bool :=
  ((9 <=? code c)%N && (code c <=? 13)%N)
  || ((28 <=? code c)%N && (code c <=? 32)%N).

(** [c.upper()] for an ASCII character. *)
Definition ascii_upper (c : ascii) : ascii :=
  if (97 <=? code c)%N && (code c <=? 122)%N
  then ascii_of_N (code c - 32)
  else c.

Definition starts_continuation (ch : string) : bool :=
  match ch with
  | String d _ => is_continuation d
  | EmptyString => false
  end.

(** The characters of a text, each as its bytes: an ASCII byte is a
    character, and a byte that is not ASCII takes the continuation bytes
    that follow it. *)
Fixpoint chars (s : string) : list string :=
  match s with
  | EmptyString => []
  | String c s' =>
      match chars s' with
      | ch :: rest =>
          if negb (is_ascii c) && starts_continuation ch
          then String c ch :: rest
          else String c EmptyString :: ch :: rest
      | [] => [String c EmptyString]
      end
  end.

(** The text made of the given characters. *)
Fixpoint concat (l : list string) : string :=
  match l with
  | [] => EmptyString
  | ch :: l' => ch ++ concat l'
  end.

(** The character, when it is an ASCII one. *)
Definition ascii_char (ch : string) : option ascii :=
  match ch with
  | String c EmptyString => if is_ascii c then Some c else None
  | _ => None
  end.

Section Tables.
Context {U : Unicode}.

(** The entry of the table for a character outside ASCII.  Bytes that
    start with a continuation byte are not a character and have no entry. *)
Definition lookup (ch : string) : uclass :=
  if starts_continuation ch then UOther else classify ch.

(** [c.isdigit()] for one character. *)
Definition char_isdigit (ch : string) : bool :=
  match ascii_char ch with
  | Some c => ascii_isdigit c
  | None => match lookup ch with UDigit => true | _ => false end
  end.

(** [c.isspace()] for one character. *)
Definition char_isspace (ch : string) : bool :=
  match ascii_char ch with
  | Some c => ascii_isspace c
  | None => match lookup ch with USpace => true | _ => false end
  end.

(** [c.upper()] for one character; the result can be several characters. *)
Definition char_upper (ch : string) : string :=
  match ascii_char ch with
  | Some c => String (ascii_upper c) EmptyString
  | None => match lookup ch with UCased h t => String h t | _ => ch end
  end.

(** [s.upper()] *)
Definition upper (s : string) : string := concat (map char_upper (chars s)).

(** [s.isdigit()]: every character is a digit and there is at least one. *)
Definition isdigit (s : string) : bool :=
  match chars s with
  | [] => false
  | l => forallb char_isdigit l
  end.

(** [s.lstrip()], on the characters. *)
Fixpoint lstrip_chars (l : list string) : list string :=
  match l with
  | [] => []
  | ch :: l' => if char_isspace ch then lstrip_chars l' else l
  end.

(** [s.rstrip()], on the characters. *)
Fixpoint rstrip_chars (l : list string) : list string :=
  match l with
  | [] => []
  | ch :: l' =>
      match rstrip_chars l' with
      | [] => if char_isspace ch then [] else [ch]
      | r => ch :: r
      end
  end.

(** [s.strip()] *)
Definition strip (s : string) : string :=
  concat (rstrip_chars (lstrip_chars (chars s))).

End Tables.

(** [s.startswith(p)] *)
Definition startswith (s p : string) : bool := prefix p s.

(** [s.replace(old, new)] for a non-empty [old]: the text is scanned from
    the left; where [old] starts, [new] is emitted and the scan resumes
    after the match ([skip] counts the characters of the match that are
    still to be passed over), otherwise the character is copied. *)
Fixpoint replace_from (old new : string) (skip : nat) (s : string) : string :=
  match s with
  | EmptyString => EmptyString
  | String c s' =>
      match skip with
      | S k => replace_from old new k s'
      | O =>
          if prefix old s
          then new ++ replace_from old new (String.length old - 1) s'
          else String c (replace_from old new O s')
      end
  end.

Definition replace (s old new : string) : string := replace_from old new O s.

(** [sep.join(l)] *)
Fixpoint join (sep : string) (l : list string) : string :=
  match l with
  | [] => EmptyString
  | [x] => x
  | x :: rest => x ++ sep ++ join sep rest
  end.

(** [str(n)] for an [int]. *)
Definition of_int (n : Z) : string := NilZero.string_of_int (Z.to_int n).

End Str.

(** ** Python values, exceptions and results *)

(** The values [response.json()] and a DataFrame cell can hold.  A [dict] is
    an association list read with [dict_lookup], which takes the first
    binding of a key. *)
Inductive pyval : Type :=
| PNone
| PBool (b : bool)
| PInt (n : Z)
| PFloat (f : spec_float)
| PStr (s : string)
| PList (l : list pyval)
| PDict (d : list (string * pyval)).

(** [bool(v)] *)
Definition truthy (v : pyval) : bool :=
  match v with
  | PNone => false
  | PBool b => b
  | PInt n => negb (n =? 0)
  | PFloat (S754_zero _) => false
  | PFloat _ => true
  | PStr s => negb (s =? "")%string
  | PList l => match l with [] => false | _ => true end
  | PDict d => match d with [] => false | _ => true end
  end.

Definition type_name (v : pyval) : string :=
  match v with
  | PNone => "NoneType"
  | PBool _ => "bool"
  | PInt _ => "int"
  | PFloat _ => "float"
  | PStr _ => "str"
  | PList _ => "list"
  | PDict _ => "dict"
  end.

Fixpoint dict_lookup (d : list (string * pyval)) (k : string) : option pyval :=
  match d with
  | [] => None
  | (k', v) :: d' => if (k' =? k)%string then Some v else dict_lookup d' k
  end.

(** The exceptions the handlers raise or catch. *)
Inductive exn : Type :=
| HTTPException (status_code : Z) (detail : string)
| AttributeError (msg : string)
| KeyError (msg : string)
| ValueError (msg : string)
| TypeError (msg : string)
| OtherError (msg : string).

(** A computation raises or returns. *)
Inductive result (A : Type) : Type :=
| Raise (e : exn)
| Return (a : A).
Arguments Raise {A} e.
Arguments Return {A} a.

Definition bind {A B : Type} (r : result A) (k : A -> result B) : result B :=
  match r with
  | Raise e => Raise e
  | Return a => k a
  end.

Notation "x <- r ;; k" := (bind r (fun x => k))
  (at level 61, r at next level, right associativity).

(** [v.get(k, default)]: an [AttributeError] unless [v] is a dict. *)
Definition py_get (v : pyval) (k : string) (default : pyval) : result pyval :=
  match v with
  | PDict d =>
      match dict_lookup d k with
      | Some x => Return x
      | None => Return default
      end
  | _ => Raise (AttributeError ("'" ++ type_name v ++ "' object has no attribute 'get'"))
  end.

(** [v == s] for a string literal [s]. *)
Definition eq_str (v : pyval) (s : string) : bool :=
  match v with
  | PStr t => (t =? s)%string
  | _ => false
  end.

(** The last two clauses of both handlers:
    [except HTTPException: raise] and
    [except Exception as e: ... raise HTTPException(status_code=500, ...)].
    The text printed to the console there is not part of the result. *)
Definition reraise_http {A : Type} (r : result A) : result A :=
  match r with
  | Raise (HTTPException _ _) => r
  | Raise _ =>
      Raise (HTTPException 500
               "An unexpected error occurred while processing your request")
  | Return _ => r
  end.

(** What the handlers take from the Python runtime and is fixed by it: the
    Unicode table, [repr] of a float, a string or a container, and [float]
    of a string or an integer. *)
Class Builtins : Type := {
  unicode :: Unicode;
  py_repr : pyval -> string;
  float_of_str : string -> option spec_float;
  float_of_int : Z -> spec_float
}.

Section Conversions.
Context {B : Builtins}.

(** [str(v)], also what an f-string inserts for [{v}]. *)
Definition py_str (v : pyval) : string :=
  match v with
  | PNone => "None"
  | PBool true => "True"
  | PBool false => "False"
  | PInt n => Str.of_int n
  | PStr s => s
  | _ => py_repr v
  end.

(** [float(v)] *)
Definition py_float (v : pyval) : result spec_float :=
  match v with
  | PFloat f => Return f
  | PInt n => Return (float_of_int n)
  | PBool b => Return (float_of_int (if b then 1 else 0))
  | PStr s =>
      match float_of_str s with
      | Some f => Return f
      | None =>
          Raise (ValueError ("could not convert string to float: " ++ py_repr v))
      end
  | _ =>
      Raise (TypeError ("float() argument must be a string or a real number, not '"
                        ++ type_name v ++ "'"))
  end.

End Conversions.

(** ** The carrier validator *)

Module Carrier.

Definition FMCSA_BASE_URL : string :=
  "https://mobile.fmcsa.dot.gov/qc/services/carriers/".

(** What [requests.get(url, timeout=10)] can do: raise
    [requests.exceptions.Timeout], raise another [RequestException] whose
    text is [msg], or return a response.  [json] is the outcome of
    [response.json()]: the parsed body, or [None] when it raises
    [ValueError]. *)
Record Response : Type := {
  status_code : Z;
  json : option pyval
}.

Inductive get_outcome : Type :=
| Timeout
| RequestException (msg : string)
| Received (response : Response).

(** The environment of the handler: the module-level [FMCSA_API_KEY] (the
    result of [os.environ.get]) and the registry, as the outcome of a GET
    on each URL. *)
Record World : Type := {
  FMCSA_API_KEY : option string;
  requests_get : string -> get_outcome
}.

(** [not FMCSA_API_KEY] is false: the variable is set and not empty.  Module
    start-up (lines 16-18) raises [ValueError] otherwise, so a handler of a
    loaded module runs in such a world. *)
Definition key_configured (w : World) : bool :=
  match FMCSA_API_KEY w with
  | Some k => negb (k =? "")%string
  | None => false
  end.

(** Lines 16-18: the module reads the key from the environment and refuses
    to load without one. *)
Definition startup (environ_key : option string) (get : string -> get_outcome)
  : result World :=
  let w := {| FMCSA_API_KEY := environ_key; requests_get := get |} in
  if negb (key_configured w) then
    Raise (ValueError "FMCSA_API_KEY must be set in environment variables")
  else Return w.

Definition key_text (w : World) : string :=
  match FMCSA_API_KEY w with
  | Some k => k
  | None => "None"
  end.

(** The ["carrier"] entry of the response data. *)
Record CarrierRecord : Type := {
  carrier_id : string;
  status : string;
  carrier_name : pyval;
  dot_number : string;
  mc_number : string;
  status_reason : option string
}.

(** The ["next_steps"] entry: step ["1"] and the four sub-steps of ["2"]. *)
Record NextSteps : Type := {
  step_1 : string;
  step_2a : string;
  step_2b : string;
  step_2c : string;
  step_2d : string
}.

Record CarrierData : Type := {
  carrier : CarrierRecord;
  transfer_contact : pyval;
  next_steps : NextSteps
}.

Record CarrierResponse : Type := {
  success : bool;
  data : CarrierData
}.

(** Line 67: [mc_number.upper().replace('MC-', '').strip()]. *)
Definition clean {U : Unicode} (mc_number : string) : string :=
  Str.strip (Str.replace (Str.upper mc_number) "MC-" "").

(** Line 77. *)
Definition url_of (w : World) (clean_mc : string) : string :=
  FMCSA_BASE_URL ++ clean_mc ++ "?webKey=" ++ key_text w.

Section Handler.
Context {B : Builtins}.

Definition make_next_steps (carrier_name : pyval) : NextSteps :=
  {| step_1 :=
       "Confirm you found the right carrier name. Ask user exactly this: '"
       ++ py_str carrier_name ++ "?'. Then wait for user to respond.";
     step_2a :=
       "If user confirms: move on to finding available loads, MAKE SURE you do not give them load information until you have verified they work for the carrier "
       ++ py_str carrier_name ++ ".";
     step_2b :=
       "It is possible that you may have transcribed the name incorrectly, so use your best judgement to decide if the name the caller gives is close enough to the carrier name you have. If so, you can consider it a match and move on to finding available loads.";
     step_2c :=
       "If user denies: first, you must ask the user to repeat the name of the carrier they work for ('I'm sorry, I didn't quite catch that. What's the name of the carrier you work for?'). Wait for the user to provide the name again and check if it matches the carrier name you have.";
     step_2d :=
       "If you still cannot verify the carrier name, ask the user for their MC / DOT number ('I'm sorry, what's that MC number again?'). Wait for user to provide number again. Then search for the carrier again with new number the caller provides."
  |}.

(** Lines 136-169: status derivation and the response, from the carrier
    section and the two extracted fields. *)
Definition build_response (clean_mc : string) (carrier_data carrier_name dot_number : pyval)
  : result CarrierResponse :=
  allowed <- py_get carrier_data "allowedToOperate" PNone ;;
  let is_authorized := eq_str allowed "Y" in
  let status := if is_authorized then "Active" else "Inactive" in
  oos <- py_get carrier_data "oosDate" PNone ;;
  let status_reason :=
    if truthy oos then Some "Out of Service"
    else if negb is_authorized then Some "Not Authorized to Operate"
    else None in
  Return
    {| success := true;
       data :=
         {| carrier :=
              {| carrier_id := py_str dot_number;
                 status := status;
                 carrier_name := carrier_name;
                 dot_number := py_str dot_number;
                 mc_number := clean_mc;
                 status_reason := status_reason |};
            transfer_contact := PNone;
            next_steps := make_next_steps carrier_name |} |}.

(** Lines 109-134 and on: the parsed body [data] of a 200 response. *)
Definition process_body (clean_mc : string) (data : pyval) : result CarrierResponse :=
  content <- py_get data "content" (PDict []) ;;
  if negb (truthy content) then
    Raise (HTTPException 404 ("No carrier data found for MC number: " ++ clean_mc))
  else
    carrier_data <- py_get content "carrier" (PDict []) ;;
    dba <- py_get carrier_data "dbaName" (PStr "") ;;
    carrier_name <- py_get carrier_data "legalName" dba ;;
    dot_number <- py_get carrier_data "dotNumber" PNone ;;
    if negb (truthy carrier_name) || negb (truthy dot_number) then
      Raise (HTTPException 502 "Incomplete carrier data received from FMCSA API")
    else
      build_response clean_mc carrier_data carrier_name dot_number.

(** Lines 79-120: the outcome of the GET. *)
Definition process_outcome (clean_mc : string) (o : get_outcome) : result CarrierResponse :=
  match o with
  | Timeout => Raise (HTTPException 504 "FMCSA API request timed out")
  | RequestException e =>
      Raise (HTTPException 502 ("Error connecting to FMCSA API: " ++ e))
  | Received response =>
      if status_code response =? 404 then
        Raise (HTTPException 404 ("Carrier with MC number " ++ clean_mc ++ " not found"))
      else if status_code response =? 401 then
        Raise (HTTPException 502 "Invalid FMCSA API key")
      else if negb (status_code response =? 200) then
        Raise (HTTPException 502 ("FMCSA API error: " ++ Str.of_int (status_code response)))
      else
        match json response with
        | None => Raise (HTTPException 502 "Invalid JSON response from FMCSA API")
        | Some data => process_body clean_mc data
        end
  end.

(** [validate_mc_number]: the list is the log of the URLs requested with
    [requests.get], in order; the result is the exception raised or the
    response returned. *)
Definition validate_mc_number (w : World) (mc_number : string)
  : list string * result CarrierResponse :=
  if negb (key_configured w) then
    ([], Raise (HTTPException 500 "FMCSA API key not configured"))
  else if (mc_number =? "")%string then
    ([], Raise (HTTPException 400 "MC number is required"))
  else
    let clean_mc := clean mc_number in
    if negb (Str.isdigit clean_mc) then
      ([], Raise (HTTPException 400
                    "Invalid MC number format. Must contain only digits after removing 'MC-' prefix"))
    else
      let url := url_of w clean_mc in
      ([url], reraise_http (process_outcome clean_mc (requests_get w url))).

End Handler.

End Carrier.

(** ** The load lookup *)

Module Loads.

(** A DataFrame: the column labels and the rows, each row holding one cell
    per column, in column order. *)
Record DataFrame : Type := {
  columns : list string;
  rows : list (list pyval)
}.

(** What [pd.read_csv(csv_path)] can do. *)
Inductive read_outcome : Type :=
| EmptyDataError
| ParserError
| ReadFailure (msg : string)
| Frame (df : DataFrame).

(** The environment of the handler: whether [loads.csv] exists next to the
    script, and what reading it gives. *)
Record World : Type := {
  csv_exists : bool;
  read_csv : read_outcome
}.

(** The file operations a call performs, in order. *)
Inductive io : Type :=
| PathExists
| ReadCsv.

Record LoadDetails : Type := {
  reference_number : string;
  origin : string;
  destination : string;
  equipment_type : string;
  rate : spec_float;
  commodity : string
}.

Record LoadResponse : Type := {
  success : bool;
  data : option LoadDetails;
  error : option string
}.

Definition required_fields : list string :=
  ["reference_number"; "origin"; "destination"; "equipment_type"; "rate"; "commodity"].

(** [pd.isna(v)] for a scalar. *)
Definition pd_isna (v : pyval) : bool :=
  match v with
  | PNone => true
  | PFloat S754_nan => true
  | _ => false
  end.

(** [row.to_dict()]: the cells of a row keyed by column label. *)
Definition to_dict (cols : list string) (row : list pyval) : list (string * pyval) :=
  combine cols row.

(** Position of a column label. *)
Fixpoint column_index (cols : list string) (name : string) : option nat :=
  match cols with
  | [] => None
  | c :: cols' =>
      if (c =? name)%string then Some O
      else option_map S (column_index cols' name)
  end.

(** [df[df['reference_number'] == reference_number]]: [KeyError] when the
    frame has no such column; otherwise the rows whose cell in that column
    is equal to the string. *)
Definition select (df : DataFrame) (reference_number : string) : result (list (list pyval)) :=
  match column_index (columns df) "reference_number" with
  | None => Raise (KeyError "'reference_number'")
  | Some i =>
      Return (filter (fun row => eq_str (nth i row PNone) reference_number) (rows df))
  end.

(** Line 231. *)
Definition missing_fields (load_data : list (string * pyval)) : list string :=
  filter (fun field =>
            match dict_lookup load_data field with
            | None => true
            | Some v => pd_isna v
            end) required_fields.

(** [load_data[field]] *)
Definition item (load_data : list (string * pyval)) (field : string) : result pyval :=
  match dict_lookup load_data field with
  | Some v => Return v
  | None => Raise (KeyError ("'" ++ field ++ "'"))
  end.

Section Handler.
Context {B : Builtins}.

(** Lines 239-252. *)
Definition build_details (load_data : list (string * pyval)) : result LoadResponse :=
  r <- item load_data "reference_number" ;;
  o <- item load_data "origin" ;;
  d <- item load_data "destination" ;;
  e <- item load_data "equipment_type" ;;
  x <- item load_data "rate" ;;
  x' <- py_float x ;;
  c <- item load_data "commodity" ;;
  Return
    {| success := true;
       data := Some {| reference_number := py_str r;
                       origin := py_str o;
                       destination := py_str d;
                       equipment_type := py_str e;
                       rate := x';
                       commodity := py_str c |};
       error := None |}.

(** Lines 225-258: the inner [try] with its
    [except (ValueError, TypeError)] clause. *)
Definition process_row (cols : list string) (row : list pyval) : result LoadResponse :=
  let load_data := to_dict cols row in
  let attempt :=
    match missing_fields load_data with
    | [] => build_details load_data
    | missing =>
        Raise (HTTPException 500
                 ("Missing required fields in load data: " ++ Str.join ", " missing))
    end in
  match attempt with
  | Raise (ValueError msg) | Raise (TypeError msg) =>
      Raise (HTTPException 500 ("Error processing load data: " ++ msg))
  | other => other
  end.

(** Lines 209-258: what follows a successful read. *)
Definition process_frame (df : DataFrame) (reference_number : string) : result LoadResponse :=
  if negb (Str.startswith reference_number "LOAD") then
    Raise (HTTPException 400 "Invalid reference number format. Must start with 'LOAD'")
  else
    load <- select df reference_number ;;
    match load with
    | [] => Raise (HTTPException 404 ("Load not found: " ++ reference_number))
    | row :: _ => process_row (columns df) row
    end.

(** [get_load_details]: the list is the log of file operations, in
    order; the result is the exception raised or the response
    returned. *)
Definition get_load_details (w : World) (reference_number : string)
  : list io * result LoadResponse :=
  if negb (csv_exists w) then
    ([PathExists], Raise (HTTPException 503 "Load data file not available"))
  else
    ([PathExists; ReadCsv],
     reraise_http
       match read_csv w with
       | EmptyDataError => Raise (HTTPException 503 "Load data file is empty")
       | ParserError => Raise (HTTPException 503 "Error parsing load data file")
       | ReadFailure msg => Raise (OtherError msg)
       | Frame df => process_frame df reference_number
       end).

End Handler.

End Loads.

(** ** Concrete environments

    The worlds, bodies and frames at which the theorems below are
    instantiated. *)

Module Sample.

(** The text with the given bytes. *)
Definition bytes (l : list Z) : string :=
  string_of_list_ascii (map (fun z => ascii_of_N (Z.to_N z)) l).

(** Superscript two, U+00B2, and the Arabic-Indic digits one, two and
    three, U+0661 to U+0663: [isdigit] holds of them. *)
Definition superscript_two : string := bytes [194; 178].
Definition arabic_one : string := bytes [217; 161].
Definition arabic_two : string := bytes [217; 162].
Definition arabic_three : string := bytes [217; 163].

(** The no-break space, U+00A0, and the next-line control, U+0085:
    [isspace] holds of them. *)
Definition no_break_space : string := bytes [194; 160].
Definition next_line : string := bytes [194; 133].

(** Small e with acute accent, U+00E9, whose upper-case form is U+00C9, and
    sharp s, U+00DF, whose upper-case form is the two letters SS. *)
Definition e_acute : string := bytes [195; 169].
Definition sharp_s : string := bytes [195; 159].

(** An excerpt of the Unicode table with these characters. *)
Definition unicode_excerpt : Unicode :=
  {| classify := fun ch =>
       if (ch =? superscript_two)%string then UDigit
       else if (ch =? arabic_one)%string then UDigit
       else if (ch =? arabic_two)%string then UDigit
       else if (ch =? arabic_three)%string then UDigit
       else if (ch =? no_break_space)%string then USpace
       else if (ch =? next_line)%string then USpace
       else if (ch =? e_acute)%string then UCased (ascii_of_N 195) (bytes [137])
       else if (ch =? sharp_s)%string then UCased "S" "S"
       else UOther |}.

(** A runtime with that table, whose integer-to-float conversion is exact
    on the integers used here. *)
Definition builtins : Builtins :=
  {| unicode := unicode_excerpt;
     py_repr := fun _ => "<repr>";
     float_of_str := fun _ => None;
     float_of_int := fun n =>
       match n with
       | Z0 => S754_zero false
       | Zpos p => S754_finite false p 0
       | Zneg p => S754_finite true p 0
       end |}.

(** A registry that answers every GET with [o]. *)
Definition registry (o : Carrier.get_outcome) : Carrier.World :=
  {| Carrier.FMCSA_API_KEY := Some "test-key";
     Carrier.requests_get := fun _ => o |}.

Definition ok (body : pyval) : Carrier.get_outcome :=
  Carrier.Received {| Carrier.status_code := 200; Carrier.json := Some body |}.

Definition status_only (code : Z) : Carrier.get_outcome :=
  Carrier.Received {| Carrier.status_code := code; Carrier.json := None |}.

Definition body_of (carrier_section : list (string * pyval)) : pyval :=
  PDict [("content", PDict [("carrier", PDict carrier_section)])].

(** A registry that answers 200 with the given carrier section. *)
Definition registry_with (carrier_section : list (string * pyval)) : Carrier.World :=
  registry (ok (body_of carrier_section)).

(** A registry that never answers in time. *)
Definition slow_registry : Carrier.World := registry Carrier.Timeout.

(** An authorized carrier that is not out of service. *)
Definition active_carrier : list (string * pyval) :=
  [("allowedToOperate", PStr "Y");
   ("dbaName", PNone);
   ("dotNumber", PInt 1234567);
   ("legalName", PStr "ACME TRUCKING LLC");
   ("oosDate", PNone)].

(** An authorized carrier with an out-of-service date. *)
Definition oos_carrier : list (string * pyval) :=
  [("allowedToOperate", PStr "Y");
   ("dotNumber", PInt 1234567);
   ("legalName", PStr "ACME TRUCKING LLC");
   ("oosDate", PStr "2023-05-01")].

(** A carrier section whose legal name is present but empty. *)
Definition unnamed_carrier : list (string * pyval) :=
  [("legalName", PStr "");
   ("dbaName", PStr "ACME");
   ("dotNumber", PInt 1234567)].

(** A body whose [content] is a non-empty object without a [carrier] key. *)
Definition body_without_carrier : pyval :=
  PDict [("content", PDict [("retrievalDate", PStr "2024-01-01")])].

(** A body whose [content] is empty. *)
Definition body_without_content : pyval :=
  PDict [("content", PList []); ("retrievalDate", PStr "2024-01-01")].

Definition loads_columns : list string :=
  ["reference_number"; "origin"; "destination"; "equipment_type"; "rate"; "commodity"].

Definition complete_row (ref : string) : list pyval :=
  [PStr ref; PStr "Dallas, TX"; PStr "Atlanta, GA"; PStr "Dry Van";
   PInt 2500; PStr "Paper"].

(** A row whose [rate] cell is NaN. *)
Definition row_without_rate (ref : string) : list pyval :=
  [PStr ref; PStr "Dallas, TX"; PStr "Atlanta, GA"; PStr "Dry Van";
   PFloat S754_nan; PStr "Paper"].

Definition file_of (rows : list (list pyval)) : Loads.World :=
  {| Loads.csv_exists := true;
     Loads.read_csv := Loads.Frame {| Loads.columns := loads_columns; Loads.rows := rows |} |}.

Definition missing_file : Loads.World :=
  {| Loads.csv_exists := false; Loads.read_csv := Loads.EmptyDataError |}.

Definition empty_file : Loads.World :=
  {| Loads.csv_exists := true; Loads.read_csv := Loads.EmptyDataError |}.

Definition malformed_file : Loads.World :=
  {| Loads.csv_exists := true; Loads.read_csv := Loads.ParserError |}.

(** Two rows with the same reference number, the second one incomplete. *)
Definition duplicated_rows : list (list pyval) :=
  [complete_row "LOAD001"; row_without_rate "LOAD001"].

End Sample.

(** ** Claim-side vocabulary *)

(** The text has a character that is not a digit. *)
Definition has_non_digit {U : Unicode} (s : string) : Prop :=
  exists ch, In ch (Str.chars s) /\ Str.char_isdigit ch = false.

(** The entry of a dict, [None] when the key is absent: [d.get(k)]. *)
Definition field (d : list (string * pyval)) (k : string) : pyval :=
  match dict_lookup d k with
  | Some v => v
  | None => PNone
  end.

(** The [content.carrier] section of a parsed body, when there is one. *)
Definition carrier_section (body : pyval) : option pyval :=
  match body with
  | PDict d =>
      match dict_lookup d "content" with
      | Some (PDict c) => dict_lookup c "carrier"
      | _ => None
      end
  | _ => None
  end.

(** The body has no [content.carrier] section, or an empty one. *)
Definition lacks_carrier_section (body : pyval) : bool :=
  match carrier_section body with
  | Some v => negb (truthy v)
  | None => true
  end.

(** The carrier name of the specification: the legal name, or the trade name
    when the carrier section has no legal name. *)
Definition name_of_section (cd : list (string * pyval)) : pyval :=
  match dict_lookup cd "legalName" with
  | Some v => v
  | None =>
      match dict_lookup cd "dbaName" with
      | Some v => v
      | None => PStr ""
      end
  end.

(** The row is incomplete: one of the six fields is absent or null/NaN. *)
Definition incomplete (cols : list string) (row : list pyval) : bool :=
  existsb (fun f =>
             match dict_lookup (Loads.to_dict cols row) f with
             | None => true
             | Some v => Loads.pd_isna v
             end) Loads.required_fields.

(** The row's [reference_number] cell equals the queried text. *)
Definition row_matches (cols : list string) (row : list pyval) (ref : string) : bool :=
  match dict_lookup (Loads.to_dict cols row) "reference_number" with
  | Some v => eq_str v ref
  | None => false
  end.

(** ** The routes

    Lines 270-278: the two GET routes hand the path parameter to the
    handlers and return what they return. *)

Module Api.

Section Routes.
Context {B : Builtins}.

(** [GET /api/v1/carriers/validate/{mc_number}] *)
Definition validate_carrier (w : Carrier.World) (mc_number : string)
  : list string * result Carrier.CarrierResponse :=
  Carrier.validate_mc_number w mc_number.

(** [GET /api/v1/loads/{reference_number}] *)
Definition get_load (w : Loads.World) (reference_number : string)
  : list Loads.io * result Loads.LoadResponse :=
  Loads.get_load_details w reference_number.

End Routes.

End Api.

(** ** Further vocabulary *)

(** The text consists of ASCII whitespace only. *)
Fixpoint all_space (s : string) : bool :=
  match s with
  | EmptyString => true
  | String c s' => Str.ascii_isspace c && all_space s'
  end.

(** The bytes of a text, each as a character of one byte. *)
Fixpoint singles (s : string) : list string :=
  match s with
  | EmptyString => []
  | String c s' => String c EmptyString :: singles s'
  end.

(** The text is empty or starts with an ASCII character. *)
Definition ascii_start (s : string) : bool :=
  match s with
  | EmptyString => true
  | String c _ => Str.is_ascii c
  end.

(** No byte of the text is ASCII. *)
Fixpoint non_ascii_text (s : string) : bool :=
  match s with
  | EmptyString => true
  | String c s' => negb (Str.is_ascii c) && non_ascii_text s'
  end.

(** The bytes of one character: one ASCII byte, or one or more bytes none
    of which is ASCII. *)
Definition is_char (ch : string) : Prop :=
  (exists c, ch = String c EmptyString /\ Str.is_ascii c = true)
  \/ (ch <> EmptyString /\ non_ascii_text ch = true).

(** No byte of the text is the letter M. *)
Fixpoint without_M (s : string) : bool :=
  match s with
  | EmptyString => true
  | String c s' => negb (Ascii.eqb c "M") && without_M s'
  end.

(** The text consists of ASCII characters only. *)
Fixpoint ascii_text (s : string) : bool :=
  match s with
  | EmptyString => true
  | String c s' => Str.is_ascii c && ascii_text s'
  end.

(** What the catch-all clause of both handlers raises. *)
Definition unexpected_error : exn :=
  HTTPException 500 "An unexpected error occurred while processing your request".

(** The value is a dict. *)
Definition is_dict (v : pyval) : bool :=
  match v with
  | PDict _ => true
  | _ => false
  end.

(** ** Normalization in the words of the specification

    "Normalize: uppercase, remove literal substring MC-, trim whitespace",
    written out for ASCII text without the functions of [Str]: the capital
    of a letter is read off the two alphabets, the substring is removed
    wherever the three characters stand, and whitespace is dropped at the
    front of the text and at the front of the text read backwards. *)

Module Spec.

Definition small_letters : string := "abcdefghijklmnopqrstuvwxyz".
Definition capital_letters : string := "ABCDEFGHIJKLMNOPQRSTUVWXYZ".

Fixpoint position (c : ascii) (alphabet : string) : option nat :=
  match alphabet with
  | EmptyString => None
  | String a rest =>
      if Ascii.eqb a c then Some O else option_map S (position c rest)
  end.

Definition capital (c : ascii) : ascii :=
  match position c small_letters with
  | Some i =>
      match String.get i capital_letters with
      | Some u => u
      | None => c
      end
  | None => c
  end.

Fixpoint uppercase (s : string) : string :=
  match s with
  | EmptyString => EmptyString
  | String c s' => String (capital c) (uppercase s')
  end.

Fixpoint remove_mc (s : string) : string :=
  match s with
  | EmptyString => EmptyString
  | String c1 s1 =>
      match s1 with
      | String c2 (String c3 rest) =>
          if Ascii.eqb c1 "M" && Ascii.eqb c2 "C" && Ascii.eqb c3 "-"
          then remove_mc rest
          else String c1 (remove_mc s1)
      | _ => String c1 (remove_mc s1)
      end
  end.

(** Tab, line feed, vertical tab, form feed, carriage return, the four
    separators and the space. *)
Definition blanks : list ascii :=
  map ascii_of_N [9; 10; 11; 12; 13; 28; 29; 30; 31; 32]%N.

Definition blank (c : ascii) : bool := existsb (Ascii.eqb c) blanks.

(** The text without the whitespace it starts with. *)
Fixpoint drop_blanks (s : string) : string :=
  match s with
  | EmptyString => EmptyString
  | String c s' => if blank c then drop_blanks s' else s
  end.

(** The text read backwards. *)
Fixpoint reverse (s : string) : string :=
  match s with
  | EmptyString => EmptyString
  | String c s' => reverse s' ++ String c EmptyString
  end.

Definition trim (s : string) : string :=
  reverse (drop_blanks (reverse (drop_blanks s))).

Definition normalize (s : string) : string :=
  trim (remove_mc (uppercase s)).

End Spec.

(** * Properties *)

(** ** The string operations on small inputs *)

Example upper_ex {U : Unicode} : Str.upper "mc-12a" = "MC-12A".
Proof. reflexivity. Qed.

Example replace_ex : Str.replace "MMC-C-1MC-" "MC-" "" = "MC-1".
Proof. reflexivity. Qed.

Example strip_ex {U : Unicode} : Str.strip "  12 3  " = "12 3".
Proof. reflexivity. Qed.

Example of_int_ex :
  Str.of_int 404 = "404" /\ Str.of_int 0 = "0" /\ Str.of_int (-7) = "-7".
Proof. repeat split; reflexivity. Qed.

Example join_ex : Str.join ", " ["a"; "b"; "c"] = "a, b, c".
Proof. reflexivity. Qed.

(** Characters outside ASCII: the digits of other scripts are digits, the
    no-break space is stripped, and an upper-case form can be longer. *)
Example chars_ex :
  Str.chars ("1" ++ Sample.superscript_two ++ Sample.arabic_three ++ " ")
  = ["1"; Sample.superscript_two; Sample.arabic_three; " "].
Proof. reflexivity. Qed.

Example isdigit_unicode_ex :
  Str.isdigit (U := Sample.unicode_excerpt) ("12" ++ Sample.superscript_two) = true
  /\ Str.isdigit (U := Sample.unicode_excerpt)
       (Sample.arabic_one ++ Sample.arabic_two ++ Sample.arabic_three) = true
  /\ Str.isdigit (U := Sample.unicode_excerpt) ("12" ++ Sample.e_acute) = false.
Proof. repeat split; reflexivity. Qed.

Example strip_unicode_ex :
  Str.strip (U := Sample.unicode_excerpt)
    (Sample.next_line ++ "123" ++ Sample.no_break_space) = "123".
Proof. reflexivity. Qed.

Example upper_unicode_ex :
  Str.upper (U := Sample.unicode_excerpt) ("a" ++ Sample.sharp_s ++ Sample.e_acute)
  = "ASS" ++ Sample.bytes [195; 137].
Proof. reflexivity. Qed.

(** ** Bytes *)

Ltac each_byte c :=
  destruct c as [[] [] [] [] [] [] [] []]; try discriminate; try reflexivity.

Lemma ascii_upper_idem (c : ascii) :
  Str.ascii_upper (Str.ascii_upper c) = Str.ascii_upper c.
Proof. each_byte c. Qed.

Lemma digit_upper (c : ascii) :
  Str.ascii_isdigit c = true -> Str.ascii_upper c = c.
Proof. each_byte c. Qed.

Lemma digit_not_space (c : ascii) :
  Str.ascii_isdigit c = true -> Str.ascii_isspace c = false.
Proof. each_byte c. Qed.

Lemma digit_is_ascii (c : ascii) :
  Str.ascii_isdigit c = true -> Str.is_ascii c = true.
Proof. each_byte c. Qed.

Lemma space_upper (c : ascii) :
  Str.ascii_isspace c = true -> Str.ascii_upper c = c.
Proof. each_byte c. Qed.

Lemma space_is_ascii (c : ascii) :
  Str.ascii_isspace c = true -> Str.is_ascii c = true.
Proof. each_byte c. Qed.

Lemma continuation_not_ascii (c : ascii) :
  Str.is_continuation c = true -> Str.is_ascii c = false.
Proof. each_byte c. Qed.

Lemma upper_is_ascii (c : ascii) :
  Str.is_ascii c = true -> Str.is_ascii (Str.ascii_upper c) = true.
Proof. each_byte c. Qed.

Lemma upper_is_capital (c : ascii) : Str.ascii_upper c = Spec.capital c.
Proof. each_byte c. Qed.

Lemma space_is_blank (c : ascii) : Str.ascii_isspace c = Spec.blank c.
Proof. each_byte c. Qed.

Lemma not_ascii_not_M (c : ascii) :
  Str.is_ascii c = false -> Ascii.eqb c "M" = false.
Proof. each_byte c. Qed.

Lemma digit_not_M (c : ascii) :
  Str.ascii_isdigit c = true -> Ascii.eqb c "M" = false.
Proof. each_byte c. Qed.

(** ** The characters of a text *)

Lemma append_empty_r (s : string) : s ++ "" = s.
Proof. induction s as [|c s IH]; cbn; [reflexivity | now rewrite IH]. Qed.

Lemma append_assoc (a b c : string) : (a ++ b) ++ c = a ++ b ++ c.
Proof. induction a as [|x a IH]; cbn; [reflexivity | now rewrite IH]. Qed.

Lemma concat_app (l1 l2 : list string) :
  Str.concat (l1 ++ l2)%list = Str.concat l1 ++ Str.concat l2.
Proof.
  induction l1 as [|ch l1 IH]; cbn; [reflexivity|].
  now rewrite IH, append_assoc.
Qed.

Lemma concat_singles (s : string) : Str.concat (singles s) = s.
Proof. induction s as [|c s IH]; cbn; [reflexivity | now rewrite IH]. Qed.

Lemma chars_ascii_cons (c : ascii) (s : string) :
  Str.is_ascii c = true ->
  Str.chars (String c s) = String c "" :: Str.chars s.
Proof.
  intros H. cbn [Str.chars]. rewrite H. cbn [negb andb].
  now destruct (Str.chars s).
Qed.

Lemma chars_nil (s : string) : Str.chars s = [] -> s = "".
Proof.
  destruct s as [|c s]; [reflexivity|]. cbn [Str.chars].
  destruct (Str.chars s) as [|ch rest]; [discriminate|].
  destruct (negb (Str.is_ascii c) && Str.starts_continuation ch); discriminate.
Qed.

Lemma concat_chars (s : string) : Str.concat (Str.chars s) = s.
Proof.
  induction s as [|c s IH]; [reflexivity|]. cbn [Str.chars].
  destruct (Str.chars s) as [|ch rest].
  - cbn in IH |- *. now rewrite <- IH.
  - destruct (negb (Str.is_ascii c) && Str.starts_continuation ch);
      cbn in IH |- *; now rewrite IH.
Qed.

(** Characters do not run over into a text that does not start with a
    continuation byte. *)
Lemma chars_app (s1 s2 : string) :
  Str.starts_continuation s2 = false ->
  Str.chars (s1 ++ s2) = (Str.chars s1 ++ Str.chars s2)%list.
Proof.
  intros H2. induction s1 as [|c s1 IH]; [reflexivity|].
  cbn [append Str.chars]. rewrite IH.
  destruct (Str.chars s1) as [|ch rest] eqn:E.
  2:{ cbn [app].
      now destruct (negb (Str.is_ascii c) && Str.starts_continuation ch). }
  cbn [app].
  destruct s2 as [|d s2]; [reflexivity|].
  cbn [Str.starts_continuation] in H2. cbn [Str.chars].
  destruct (Str.chars s2) as [|ch2 rest2].
  - cbn [Str.starts_continuation]. now rewrite H2, andb_false_r.
  - destruct (negb (Str.is_ascii d) && Str.starts_continuation ch2);
      cbn [Str.starts_continuation]; now rewrite H2, andb_false_r.
Qed.

Lemma ascii_start_continuation (s : string) :
  ascii_start s = true -> Str.starts_continuation s = false.
Proof.
  destruct s as [|d s]; [reflexivity|]. cbn. intros H.
  destruct (Str.is_continuation d) eqn:E; [|reflexivity].
  apply continuation_not_ascii in E. congruence.
Qed.

Lemma chars_head (c : ascii) (s : string) :
  exists t rest, Str.chars (String c s) = String c t :: rest.
Proof.
  cbn [Str.chars]. destruct (Str.chars s) as [|ch rest]; [eauto|].
  destruct (negb (Str.is_ascii c) && Str.starts_continuation ch); eauto.
Qed.

Lemma chars_ascii_text (s : string) :
  ascii_text s = true -> Str.chars s = singles s.
Proof.
  induction s as [|c s IH]; [reflexivity|].
  cbn [ascii_text]. intros H. apply andb_prop in H as [Hc Hs].
  rewrite (chars_ascii_cons c s Hc), (IH Hs). reflexivity.
Qed.

Lemma space_ascii_text (ws : string) :
  all_space ws = true -> ascii_text ws = true.
Proof.
  induction ws as [|c ws IH]; [reflexivity|].
  cbn [all_space ascii_text]. intros H. apply andb_prop in H as [Hc Hs].
  now rewrite (space_is_ascii c Hc), (IH Hs).
Qed.

Lemma space_ascii_start (ws : string) :
  all_space ws = true -> ascii_start ws = true.
Proof.
  destruct ws as [|c ws]; [reflexivity|].
  cbn [all_space ascii_start]. intros H. apply andb_prop in H as [Hc _].
  now apply space_is_ascii.
Qed.

Lemma chars_space_l (ws s : string) :
  all_space ws = true ->
  Str.chars (ws ++ s) = (singles ws ++ Str.chars s)%list.
Proof.
  induction ws as [|c ws IH]; [reflexivity|].
  cbn [all_space]. intros H. apply andb_prop in H as [Hc Hs].
  cbn [append singles app].
  rewrite (chars_ascii_cons c _ (space_is_ascii c Hc)), (IH Hs). reflexivity.
Qed.

Lemma chars_space_r (s ws : string) :
  all_space ws = true ->
  Str.chars (s ++ ws) = (Str.chars s ++ singles ws)%list.
Proof.
  intros H.
  rewrite (chars_app s ws (ascii_start_continuation ws (space_ascii_start ws H))).
  now rewrite (chars_ascii_text ws (space_ascii_text ws H)).
Qed.

(** Every element of [chars s] is a character. *)
Lemma chars_are_chars (s : string) : Forall is_char (Str.chars s).
Proof.
  induction s as [|c s IH]; [constructor|]. cbn [Str.chars].
  destruct (Str.chars s) as [|ch rest].
  - constructor; [|constructor].
    destruct (Str.is_ascii c) eqn:E; [left; eauto|].
    right. split; [discriminate|]. cbn. now rewrite E.
  - inversion IH as [|? ? Hch Hrest]; subst.
    destruct (Str.is_ascii c) eqn:E; cbn [negb andb].
    + constructor; [left; eauto | exact IH].
    + destruct (Str.starts_continuation ch) eqn:Es.
      * constructor; [|exact Hrest].
        right. split; [discriminate|]. cbn [non_ascii_text]. rewrite E. cbn [negb andb].
        destruct Hch as [(d & -> & Hd) | (_ & Hn)]; [|exact Hn].
        cbn in Es. apply continuation_not_ascii in Es. congruence.
      * constructor; [|exact IH].
        right. split; [discriminate|]. cbn. now rewrite E.
Qed.

Lemma is_char_nonempty (ch : string) : is_char ch -> ch <> "".
Proof. intros [(c & -> & _) | (H & _)]; [discriminate | exact H]. Qed.

Lemma ascii_char_single (c : ascii) :
  Str.is_ascii c = true -> Str.ascii_char (String c "") = Some c.
Proof. intros H. cbn. now rewrite H. Qed.

Lemma ascii_char_some (ch : string) (c : ascii) :
  Str.ascii_char ch = Some c -> ch = String c "" /\ Str.is_ascii c = true.
Proof.
  destruct ch as [|d [|e ch]]; cbn; try discriminate.
  destruct (Str.is_ascii d) eqn:E; [|discriminate].
  intros H. injection H as <-. split; [reflexivity | exact E].
Qed.

Lemma non_ascii_char (ch : string) :
  ch <> "" -> non_ascii_text ch = true -> Str.ascii_char ch = None.
Proof.
  destruct ch as [|d [|e ch]]; cbn; [congruence | | reflexivity].
  intros _ H. destruct (Str.is_ascii d); [discriminate H | reflexivity].
Qed.

(** ** Digits *)

Lemma not_isdigit {U : Unicode} (s : string) :
  s = "" \/ has_non_digit s -> Str.isdigit s = false.
Proof.
  intros [-> | (ch & Hin & Hch)]; [reflexivity|].
  unfold Str.isdigit. destruct (Str.chars s) as [|ch0 l] eqn:E; [reflexivity|].
  destruct (forallb Str.char_isdigit (ch0 :: l)) eqn:F; [|reflexivity].
  rewrite forallb_forall in F. rewrite (F ch Hin) in Hch. discriminate Hch.
Qed.

Lemma isdigit_chars {U : Unicode} (s : string) :
  Str.isdigit s = true -> forallb Str.char_isdigit (Str.chars s) = true.
Proof.
  unfold Str.isdigit. destruct (Str.chars s); [discriminate | exact (fun H => H)].
Qed.

Lemma isdigit_nonempty {U : Unicode} (s : string) :
  Str.isdigit s = true -> s <> "".
Proof. intros H ->. discriminate H. Qed.

Lemma digit_char_upper {U : Unicode} (ch : string) :
  Str.char_isdigit ch = true -> Str.char_upper ch = ch.
Proof.
  unfold Str.char_isdigit, Str.char_upper.
  destruct (Str.ascii_char ch) as [c|] eqn:E.
  - apply ascii_char_some in E as (-> & _). intros H.
    now rewrite (digit_upper c H).
  - destruct (Str.lookup ch); try discriminate. reflexivity.
Qed.

Lemma digit_char_not_space {U : Unicode} (ch : string) :
  Str.char_isdigit ch = true -> Str.char_isspace ch = false.
Proof.
  unfold Str.char_isdigit, Str.char_isspace.
  destruct (Str.ascii_char ch) as [c|]; [apply digit_not_space|].
  destruct (Str.lookup ch); try discriminate. reflexivity.
Qed.

Lemma digit_char_without_M {U : Unicode} (ch : string) :
  is_char ch -> Str.char_isdigit ch = true -> without_M ch = true.
Proof.
  intros [(c & -> & Hc) | (Hne & Hn)] H.
  - unfold Str.char_isdigit in H. rewrite (ascii_char_single c Hc) in H.
    cbn. now rewrite (digit_not_M c H).
  - clear H Hne. induction ch as [|d ch IH]; [reflexivity|].
    cbn [non_ascii_text] in Hn. apply andb_prop in Hn as [Hd Hn].
    apply negb_true_iff in Hd.
    cbn [without_M]. now rewrite (not_ascii_not_M d Hd), (IH Hn).
Qed.

Lemma without_M_app (a b : string) :
  without_M (a ++ b) = without_M a && without_M b.
Proof.
  induction a as [|c a IH]; cbn; [reflexivity|].
  now rewrite IH, andb_assoc.
Qed.

Lemma digits_without_M {U : Unicode} (s : string) :
  forallb Str.char_isdigit (Str.chars s) = true -> without_M s = true.
Proof.
  intros H. rewrite <- (concat_chars s).
  pose proof (chars_are_chars s) as Hc.
  induction (Str.chars s) as [|ch l IH]; [reflexivity|].
  cbn [forallb] in H. apply andb_prop in H as [Hch Hl].
  inversion Hc as [|? ? Hin Hrest]; subst.
  cbn [Str.concat]. rewrite without_M_app.
  now rewrite (digit_char_without_M ch Hin Hch), (IH Hl Hrest).
Qed.

(** ** Upper-casing *)

Lemma upper_app {U : Unicode} (s1 s2 : string) :
  Str.starts_continuation s2 = false ->
  Str.upper (s1 ++ s2) = Str.upper s1 ++ Str.upper s2.
Proof.
  intros H. unfold Str.upper.
  now rewrite (chars_app s1 s2 H), map_app, concat_app.
Qed.

Lemma char_upper_single {U : Unicode} (c : ascii) :
  Str.is_ascii c = true ->
  Str.char_upper (String c "") = String (Str.ascii_upper c) "".
Proof. intros H. unfold Str.char_upper. now rewrite (ascii_char_single c H). Qed.

Lemma char_isspace_single {U : Unicode} (c : ascii) :
  Str.is_ascii c = true ->
  Str.char_isspace (String c "") = Str.ascii_isspace c.
Proof. intros H. unfold Str.char_isspace. now rewrite (ascii_char_single c H). Qed.

Lemma char_isdigit_single {U : Unicode} (c : ascii) :
  Str.is_ascii c = true ->
  Str.char_isdigit (String c "") = Str.ascii_isdigit c.
Proof. intros H. unfold Str.char_isdigit. now rewrite (ascii_char_single c H). Qed.

Lemma upper_ascii {U : Unicode} (s : string) :
  ascii_text s = true -> Str.upper s = Spec.uppercase s.
Proof.
  intros H. unfold Str.upper. rewrite (chars_ascii_text s H).
  induction s as [|c s IH]; [reflexivity|].
  cbn [ascii_text] in H. apply andb_prop in H as [Hc Hs].
  cbn [singles map Str.concat Spec.uppercase].
  rewrite (char_upper_single c Hc), (IH Hs), upper_is_capital. reflexivity.
Qed.

Lemma uppercase_ascii_text (s : string) :
  ascii_text s = true -> ascii_text (Spec.uppercase s) = true.
Proof.
  induction s as [|c s IH]; [reflexivity|].
  cbn [ascii_text Spec.uppercase]. intros H. apply andb_prop in H as [Hc Hs].
  rewrite <- upper_is_capital, (upper_is_ascii c Hc), (IH Hs). reflexivity.
Qed.

Lemma uppercase_space (ws : string) :
  all_space ws = true -> Spec.uppercase ws = ws.
Proof.
  induction ws as [|c ws IH]; [reflexivity|].
  cbn [all_space Spec.uppercase]. intros H. apply andb_prop in H as [Hc Hs].
  now rewrite <- upper_is_capital, (space_upper c Hc), (IH Hs).
Qed.

Lemma upper_space {U : Unicode} (ws : string) :
  all_space ws = true -> Str.upper ws = ws.
Proof.
  intros H. rewrite (upper_ascii ws (space_ascii_text ws H)).
  now apply uppercase_space.
Qed.

Lemma upper_space_l {U : Unicode} (ws s : string) :
  all_space ws = true -> Str.upper (ws ++ s) = ws ++ Str.upper s.
Proof.
  intros H. unfold Str.upper at 1.
  rewrite (chars_space_l ws s H), map_app, concat_app.
  rewrite <- (chars_ascii_text ws (space_ascii_text ws H)).
  fold (Str.upper ws). fold (Str.upper s). now rewrite (upper_space ws H).
Qed.

Lemma upper_space_r {U : Unicode} (s ws : string) :
  all_space ws = true -> Str.upper (s ++ ws) = Str.upper s ++ ws.
Proof.
  intros H.
  rewrite (upper_app s ws (ascii_start_continuation ws (space_ascii_start ws H))).
  now rewrite (upper_space ws H).
Qed.

Lemma char_upper_nonempty {U : Unicode} (ch : string) :
  is_char ch -> Str.char_upper ch <> "".
Proof.
  intros H. unfold Str.char_upper.
  destruct (Str.ascii_char ch); [discriminate|].
  destruct (Str.lookup ch); try discriminate; now apply is_char_nonempty.
Qed.

Lemma upper_empty {U : Unicode} (s : string) : Str.upper s = "" <-> s = "".
Proof.
  split; [|intros ->; reflexivity].
  intros H. apply chars_nil. unfold Str.upper in H.
  pose proof (chars_are_chars s) as Hc.
  destruct (Str.chars s) as [|ch rest]; [reflexivity|].
  inversion Hc as [|? ? Hch _]; subst.
  cbn [map Str.concat] in H.
  destruct (Str.char_upper ch) eqn:E; [|discriminate H].
  now apply char_upper_nonempty in E.
Qed.

Lemma upper_digits {U : Unicode} (s : string) :
  forallb Str.char_isdigit (Str.chars s) = true -> Str.upper s = s.
Proof.
  intros H. unfold Str.upper. rewrite <- (concat_chars s) at 2.
  f_equal. induction (Str.chars s) as [|ch l IH]; [reflexivity|].
  cbn [forallb] in H. apply andb_prop in H as [Hch Hl].
  cbn [map]. now rewrite (digit_char_upper ch Hch), (IH Hl).
Qed.

(** A text of digits does not start with a continuation byte. *)
Lemma isdigit_start {U : Unicode} (s : string) :
  Str.isdigit s = true -> Str.starts_continuation s = false.
Proof.
  intros H. pose proof (isdigit_chars s H) as Hd.
  destruct s as [|c s]; [reflexivity|].
  destruct (chars_head c s) as (t & rest & E).
  pose proof (chars_are_chars (String c s)) as Hc.
  rewrite E in Hd, Hc. cbn [forallb] in Hd. apply andb_prop in Hd as [Hd _].
  inversion Hc as [|? ? Hch _]; subst.
  cbn [Str.starts_continuation].
  destruct (Str.is_continuation c) eqn:Ec; [|reflexivity].
  exfalso. unfold Str.char_isdigit in Hd.
  destruct (Str.ascii_char (String c t)) as [a|] eqn:Ea.
  - apply ascii_char_some in Ea as (Ea & Hasc). injection Ea as -> _.
    apply continuation_not_ascii in Ec. congruence.
  - unfold Str.lookup in Hd. cbn [Str.starts_continuation] in Hd.
    rewrite Ec in Hd. discriminate Hd.
Qed.

(** ** Removal of ["MC-"] *)

Lemma prefix_empty (s : string) : prefix "" s = true.
Proof. destruct s; reflexivity. Qed.

(** An occurrence of ["MC-"] that starts inside [x] ends inside [x]: it
    cannot run over into a following ["MC-"]. *)
Lemma prefix_mc_inside (x b : string) :
  x <> "" ->
  prefix "MC-" (x ++ "MC-" ++ b) = prefix "MC-" x
  /\ (prefix "MC-" x = true -> (3 <= String.length x)%nat).
Proof.
  intros Hx.
  destruct x as [|c1 [|c2 [|c3 x]]]; [congruence | | | ].
  - cbn [append prefix].
    destruct (ascii_dec "M" c1) as [<-|]; [cbn|]; split;
      try reflexivity; try discriminate.
  - cbn [append prefix].
    destruct (ascii_dec "M" c1) as [<-|]; [|split; [reflexivity|discriminate]].
    destruct (ascii_dec "C" c2) as [<-|]; [cbn|]; split;
      try reflexivity; try discriminate.
  - cbn [append prefix String.length].
    destruct (ascii_dec "M" c1); destruct (ascii_dec "C" c2);
      destruct (ascii_dec "-" c3);
      split; rewrite ?prefix_empty; try reflexivity; intros; lia.
Qed.

Lemma replace_from_mc_app (b a : string) (skip : nat) :
  (skip <= String.length a)%nat ->
  Str.replace_from "MC-" "" skip (a ++ "MC-" ++ b)
  = Str.replace_from "MC-" "" skip a ++ Str.replace_from "MC-" "" 0 b.
Proof.
  revert skip. induction a as [|c a IH]; intros skip Hs.
  - assert (skip = 0)%nat as -> by (cbn in Hs; lia).
    cbn. destruct b; reflexivity.
  - destruct skip as [|k].
    + destruct (prefix_mc_inside (String c a) b) as [Hp Hl]; [discriminate|].
      change (String c a ++ "MC-" ++ b) with (String c (a ++ "MC-" ++ b)) in *.
      cbn [Str.replace_from]. rewrite Hp.
      destruct (prefix "MC-" (String c a)) eqn:E.
      * specialize (Hl eq_refl). cbn [String.length] in Hl.
        cbn [append String.length Nat.sub]. apply IH. lia.
      * cbn [append]. f_equal. apply IH. lia.
    + cbn [append Str.replace_from]. apply IH. cbn in Hs. lia.
Qed.

(** ** Texts without ["MC-"] *)

Lemma prefix_mc_not_M (c : ascii) (s : string) :
  Ascii.eqb c "M" = false -> prefix "MC-" (String c s) = false.
Proof.
  intros H. cbn [prefix].
  destruct (ascii_dec "M" c) as [<-|]; [discriminate H | reflexivity].
Qed.

Lemma prefix_mc_space (c : ascii) (s : string) :
  Str.ascii_isspace c = true -> prefix "MC-" (String c s) = false.
Proof.
  intros H. cbn [prefix].
  destruct (ascii_dec "M" c) as [<-|]; [discriminate H | reflexivity].
Qed.

Lemma replace_without_M (s : string) :
  without_M s = true -> Str.replace s "MC-" "" = s.
Proof.
  unfold Str.replace.
  induction s as [|c s IH]; [reflexivity|].
  cbn [without_M]. intros H. apply andb_prop in H as [Hc Hs].
  apply negb_true_iff in Hc.
  cbn [Str.replace_from]. rewrite (prefix_mc_not_M c s Hc).
  now rewrite IH.
Qed.

Lemma replace_leading_space (ws s : string) :
  all_space ws = true ->
  Str.replace (ws ++ s) "MC-" "" = ws ++ Str.replace s "MC-" "".
Proof.
  unfold Str.replace.
  induction ws as [|c ws IH]; [reflexivity|].
  cbn [all_space]. intros H. apply andb_prop in H as [Hc Hs].
  cbn [append Str.replace_from].
  rewrite (prefix_mc_space c (ws ++ s) Hc).
  now rewrite IH.
Qed.

Lemma prefix_mc_length (x : string) :
  prefix "MC-" x = true -> (3 <= String.length x)%nat.
Proof.
  destruct x as [|c1 [|c2 [|c3 x]]]; cbn [prefix String.length].
  - discriminate.
  - destruct (ascii_dec "M" c1); discriminate.
  - destruct (ascii_dec "M" c1); [|discriminate].
    destruct (ascii_dec "C" c2); discriminate.
  - intros _. lia.
Qed.

(** An occurrence of ["MC-"] that starts inside [x] does not run over into
    whitespace that follows. *)
Lemma prefix_mc_before_space (x ws : string) :
  x <> "" ->
  all_space ws = true ->
  prefix "MC-" (x ++ ws) = prefix "MC-" x.
Proof.
  intros Hx Hws.
  destruct ws as [|c ws]; [now rewrite append_empty_r|].
  cbn [all_space] in Hws. apply andb_prop in Hws as [Hc _].
  destruct x as [|c1 [|c2 [|c3 x]]]; [congruence | | | ].
  - cbn [append prefix].
    destruct (ascii_dec "M" c1); [|reflexivity].
    destruct (ascii_dec "C" c) as [<-|]; [discriminate Hc | reflexivity].
  - cbn [append prefix].
    destruct (ascii_dec "M" c1); [|reflexivity].
    destruct (ascii_dec "C" c2); [|reflexivity].
    destruct (ascii_dec "-" c) as [<-|]; [discriminate Hc | reflexivity].
  - cbn [append prefix].
    destruct (ascii_dec "M" c1); destruct (ascii_dec "C" c2);
      destruct (ascii_dec "-" c3); rewrite ?prefix_empty; reflexivity.
Qed.

Lemma replace_from_trailing_space (ws a : string) (skip : nat) :
  all_space ws = true ->
  (skip <= String.length a)%nat ->
  Str.replace_from "MC-" "" skip (a ++ ws)
  = Str.replace_from "MC-" "" skip a ++ ws.
Proof.
  intros Hws. revert skip. induction a as [|c a IH]; intros skip Hs.
  - assert (skip = 0)%nat as -> by (cbn in Hs; lia).
    cbn [append Str.replace_from].
    pose proof (replace_leading_space ws "" Hws) as E.
    unfold Str.replace in E. now rewrite !append_empty_r in E.
  - destruct skip as [|k].
    + change (String c a ++ ws) with (String c (a ++ ws)).
      cbn [Str.replace_from].
      change (String c (a ++ ws)) with (String c a ++ ws).
      rewrite (prefix_mc_before_space (String c a) ws) by (discriminate || exact Hws).
      destruct (prefix "MC-" (String c a)) eqn:E.
      * apply prefix_mc_length in E. cbn [String.length] in E.
        cbn [append String.length Nat.sub]. apply IH. lia.
      * cbn [append]. f_equal. apply IH. lia.
    + cbn [append Str.replace_from]. apply IH. cbn in Hs. lia.
Qed.

Lemma prefix_mc_short (s : string) :
  (String.length s < 3)%nat -> prefix "MC-" s = false.
Proof.
  intros H. destruct (prefix "MC-" s) eqn:E; [|reflexivity].
  apply prefix_mc_length in E. lia.
Qed.

Lemma prefix_mc_eqb (c1 c2 c3 : ascii) (rest : string) :
  prefix "MC-" (String c1 (String c2 (String c3 rest)))
  = Ascii.eqb c1 "M" && Ascii.eqb c2 "C" && Ascii.eqb c3 "-".
Proof.
  cbn [prefix]. rewrite prefix_empty.
  destruct (ascii_dec "M" c1) as [<-|H1].
  - destruct (ascii_dec "C" c2) as [<-|H2].
    + destruct (ascii_dec "-" c3) as [<-|H3]; [reflexivity|].
      apply Ascii.eqb_neq in H3. rewrite Ascii.eqb_sym in H3. now rewrite H3.
    + apply Ascii.eqb_neq in H2. rewrite Ascii.eqb_sym in H2. now rewrite H2.
  - apply Ascii.eqb_neq in H1. rewrite Ascii.eqb_sym in H1. now rewrite H1.
Qed.

(** The scan of [replace] removes what the specification's removal
    removes. *)
Lemma replace_is_remove_mc (s : string) :
  Str.replace s "MC-" "" = Spec.remove_mc s.
Proof.
  unfold Str.replace.
  assert (H : forall n s, (String.length s <= n)%nat ->
                          Str.replace_from "MC-" "" 0 s = Spec.remove_mc s).
  { clear s. induction n as [|n IH]; intros s Hn.
    { destruct s; [reflexivity | cbn in Hn; lia]. }
    destruct s as [|c1 s1]; [reflexivity|].
    cbn [String.length] in Hn.
    destruct s1 as [|c2 [|c3 rest]].
    - cbn [Str.replace_from Spec.remove_mc].
      rewrite prefix_mc_short by (cbn; lia). reflexivity.
    - cbn [Str.replace_from Spec.remove_mc].
      rewrite !prefix_mc_short by (cbn; lia). reflexivity.
    - change (Str.replace_from "MC-" "" 0 (String c1 (String c2 (String c3 rest))))
        with (if prefix "MC-" (String c1 (String c2 (String c3 rest)))
              then "" ++ Str.replace_from "MC-" "" 0 rest
              else String c1 (Str.replace_from "MC-" "" 0 (String c2 (String c3 rest)))).
      rewrite prefix_mc_eqb. cbn [Spec.remove_mc].
      destruct (Ascii.eqb c1 "M" && Ascii.eqb c2 "C" && Ascii.eqb c3 "-").
      + cbn [append]. apply IH. cbn [String.length] in Hn. lia.
      + f_equal. apply IH. lia. }
  apply (H (String.length s)). lia.
Qed.

Lemma replace_from_ascii_text (s : string) (skip : nat) :
  ascii_text s = true ->
  ascii_text (Str.replace_from "MC-" "" skip s) = true.
Proof.
  revert skip. induction s as [|c s IH]; intros skip H; [reflexivity|].
  cbn [ascii_text] in H. apply andb_prop in H as [Hc Hs].
  cbn [Str.replace_from]. destruct skip; [|now apply IH].
  destruct (prefix "MC-" (String c s)); [now apply IH|].
  cbn [ascii_text]. now rewrite Hc, IH.
Qed.

(** ** Stripping *)

Lemma lstrip_chars_app {U : Unicode} (l1 l2 : list string) :
  Str.lstrip_chars (l1 ++ l2)
  = if forallb Str.char_isspace l1 then Str.lstrip_chars l2
    else (Str.lstrip_chars l1 ++ l2)%list.
Proof.
  induction l1 as [|ch l1 IH]; [reflexivity|].
  cbn [app Str.lstrip_chars forallb].
  destruct (Str.char_isspace ch); [exact IH | reflexivity].
Qed.

Lemma lstrip_chars_all_space {U : Unicode} (l : list string) :
  forallb Str.char_isspace l = true -> Str.lstrip_chars l = [].
Proof.
  induction l as [|ch l IH]; [reflexivity|].
  cbn [forallb Str.lstrip_chars]. intros H. apply andb_prop in H as [Hc Hl].
  rewrite Hc. now apply IH.
Qed.

Lemma rstrip_chars_all_space {U : Unicode} (l : list string) :
  forallb Str.char_isspace l = true -> Str.rstrip_chars l = [].
Proof.
  induction l as [|ch l IH]; [reflexivity|].
  cbn [forallb Str.rstrip_chars]. intros H. apply andb_prop in H as [Hc Hl].
  now rewrite (IH Hl), Hc.
Qed.

Lemma rstrip_chars_app {U : Unicode} (l ws : list string) :
  forallb Str.char_isspace ws = true ->
  Str.rstrip_chars (l ++ ws) = Str.rstrip_chars l.
Proof.
  intros H. induction l as [|ch l IH].
  - cbn [app]. now rewrite rstrip_chars_all_space.
  - cbn [app Str.rstrip_chars]. now rewrite IH.
Qed.

Lemma singles_space {U : Unicode} (ws : string) :
  all_space ws = true -> forallb Str.char_isspace (singles ws) = true.
Proof.
  induction ws as [|c ws IH]; [reflexivity|].
  cbn [all_space singles forallb]. intros H. apply andb_prop in H as [Hc Hs].
  now rewrite (char_isspace_single c (space_is_ascii c Hc)), Hc, (IH Hs).
Qed.

Lemma strip_surrounding_space {U : Unicode} (ws1 x ws2 : string) :
  all_space ws1 = true ->
  all_space ws2 = true ->
  Str.strip (ws1 ++ x ++ ws2) = Str.strip x.
Proof.
  intros H1 H2. unfold Str.strip.
  rewrite (chars_space_l ws1 (x ++ ws2) H1), (chars_space_r x ws2 H2).
  rewrite lstrip_chars_app, (singles_space ws1 H1).
  rewrite lstrip_chars_app.
  destruct (forallb Str.char_isspace (Str.chars x)) eqn:E.
  - rewrite (lstrip_chars_all_space _ (singles_space ws2 H2)).
    now rewrite (lstrip_chars_all_space _ E).
  - now rewrite (rstrip_chars_app _ _ (singles_space ws2 H2)).
Qed.

Lemma lstrip_chars_digits {U : Unicode} (l : list string) :
  forallb Str.char_isdigit l = true -> Str.lstrip_chars l = l.
Proof.
  destruct l as [|ch l]; [reflexivity|].
  cbn [forallb Str.lstrip_chars]. intros H. apply andb_prop in H as [Hc _].
  now rewrite (digit_char_not_space ch Hc).
Qed.

Lemma rstrip_chars_digits {U : Unicode} (l : list string) :
  forallb Str.char_isdigit l = true -> Str.rstrip_chars l = l.
Proof.
  induction l as [|ch l IH]; [reflexivity|].
  cbn [forallb Str.rstrip_chars]. intros H. apply andb_prop in H as [Hc Hl].
  rewrite (IH Hl), (digit_char_not_space ch Hc). now destruct l.
Qed.

Lemma strip_digits {U : Unicode} (s : string) :
  forallb Str.char_isdigit (Str.chars s) = true -> Str.strip s = s.
Proof.
  intros H. unfold Str.strip.
  now rewrite (lstrip_chars_digits _ H), (rstrip_chars_digits _ H), concat_chars.
Qed.

(** Stripping ASCII text is the specification's trimming. *)

Lemma drop_blanks_ascii_text (s : string) :
  ascii_text s = true -> ascii_text (Spec.drop_blanks s) = true.
Proof.
  induction s as [|c s IH]; [reflexivity|].
  intros H. cbn [Spec.drop_blanks]. destruct (Spec.blank c); [|exact H].
  cbn [ascii_text] in H. apply andb_prop in H as [_ Hs]. now apply IH.
Qed.

Lemma lstrip_singles {U : Unicode} (s : string) :
  ascii_text s = true ->
  Str.lstrip_chars (singles s) = singles (Spec.drop_blanks s).
Proof.
  induction s as [|c s IH]; [reflexivity|].
  cbn [ascii_text]. intros H. apply andb_prop in H as [Hc Hs].
  cbn [singles Str.lstrip_chars Spec.drop_blanks].
  rewrite (char_isspace_single c Hc), space_is_blank.
  destruct (Spec.blank c); [now apply IH | reflexivity].
Qed.

Lemma reverse_app (a b : string) :
  Spec.reverse (a ++ b) = Spec.reverse b ++ Spec.reverse a.
Proof.
  induction a as [|c a IH]; cbn [append Spec.reverse].
  - now rewrite append_empty_r.
  - now rewrite IH, append_assoc.
Qed.

Lemma reverse_empty (s : string) : Spec.reverse s = "" -> s = "".
Proof.
  destruct s as [|c s]; [reflexivity|]. cbn [Spec.reverse].
  destruct (Spec.reverse s); discriminate.
Qed.

Lemma drop_blanks_last (a : string) (c : ascii) :
  Spec.drop_blanks (a ++ String c "")
  = match Spec.drop_blanks a with
    | "" => if Spec.blank c then "" else String c ""
    | r => r ++ String c ""
    end.
Proof.
  induction a as [|d a IH]; [reflexivity|].
  cbn [append Spec.drop_blanks].
  destruct (Spec.blank d); [exact IH | reflexivity].
Qed.

Lemma rstrip_singles {U : Unicode} (s : string) :
  ascii_text s = true ->
  Str.rstrip_chars (singles s)
  = singles (Spec.reverse (Spec.drop_blanks (Spec.reverse s))).
Proof.
  induction s as [|c s IH]; [reflexivity|].
  cbn [ascii_text]. intros H. apply andb_prop in H as [Hc Hs].
  cbn [singles Str.rstrip_chars Spec.reverse].
  rewrite (IH Hs), drop_blanks_last.
  rewrite (char_isspace_single c Hc), space_is_blank.
  destruct (Spec.drop_blanks (Spec.reverse s)) as [|d r] eqn:E.
  - cbn [Spec.reverse singles]. destruct (Spec.blank c); reflexivity.
  - rewrite reverse_app. cbn [Spec.reverse append singles].
    destruct (singles (Spec.reverse r ++ String d "")) eqn:F; [|reflexivity].
    destruct (Spec.reverse r); discriminate F.
Qed.

Lemma strip_ascii {U : Unicode} (s : string) :
  ascii_text s = true -> Str.strip s = Spec.trim s.
Proof.
  intros H. unfold Str.strip, Spec.trim.
  rewrite (chars_ascii_text s H), (lstrip_singles s H).
  rewrite (rstrip_singles _ (drop_blanks_ascii_text s H)).
  apply concat_singles.
Qed.

(** On ASCII text the normalization of the code is the normalization of
    the specification. *)
Lemma clean_is_normalize {U : Unicode} (s : string) :
  ascii_text s = true -> Carrier.clean s = Spec.normalize s.
Proof.
  intros H. unfold Carrier.clean, Spec.normalize.
  rewrite (upper_ascii s H), <- replace_is_remove_mc.
  apply strip_ascii. unfold Str.replace.
  apply replace_from_ascii_text. now apply uppercase_ascii_text.
Qed.

(** ** Digits through the normalization *)

Lemma clean_digits {U : Unicode} (s : string) :
  forallb Str.char_isdigit (Str.chars s) = true -> Carrier.clean s = s.
Proof.
  intros H. unfold Carrier.clean.
  rewrite (upper_digits s H), (replace_without_M s (digits_without_M s H)).
  now apply strip_digits.
Qed.

Lemma clean_surrounding_space {U : Unicode} (ws1 s ws2 : string) :
  all_space ws1 = true ->
  all_space ws2 = true ->
  Carrier.clean (ws1 ++ s ++ ws2) = Carrier.clean s.
Proof.
  intros H1 H2. unfold Carrier.clean.
  rewrite (upper_space_l ws1 _ H1), (upper_space_r s ws2 H2).
  rewrite (replace_leading_space ws1 _ H1).
  unfold Str.replace.
  rewrite (replace_from_trailing_space ws2 (Str.upper s) 0 H2) by lia.
  now apply strip_surrounding_space.
Qed.

(** ** The carrier validator, step by step *)

Lemma validate_rejects {B : Builtins} (w : Carrier.World) (mc : string) :
  Carrier.key_configured w = true ->
  Str.isdigit (Carrier.clean mc) = false ->
  exists detail,
    Carrier.validate_mc_number w mc = ([], Raise (HTTPException 400 detail)).
Proof.
  intros Hk Hd. unfold Carrier.validate_mc_number. rewrite Hk. cbn [negb].
  destruct (mc =? "")%string; [eauto|].
  rewrite Hd. cbn [negb]. eauto.
Qed.

Lemma validate_calls {B : Builtins} (w : Carrier.World) (mc : string) :
  Carrier.key_configured w = true ->
  Str.isdigit (Carrier.clean mc) = true ->
  Carrier.validate_mc_number w mc
  = ([Carrier.url_of w (Carrier.clean mc)],
     reraise_http
       (Carrier.process_outcome (Carrier.clean mc)
          (Carrier.requests_get w (Carrier.url_of w (Carrier.clean mc))))).
Proof.
  intros Hk Hd. unfold Carrier.validate_mc_number. rewrite Hk. cbn [negb].
  destruct (mc =? "")%string eqn:E.
  - apply String.eqb_eq in E. subst mc. discriminate Hd.
  - rewrite Hd. reflexivity.
Qed.

(** Identifiers outside ASCII: digits of another script pass the format
    check and are requested as they are; a no-break space is stripped; an
    accented letter is rejected. *)
Example unicode_digits_are_requested :
  Carrier.validate_mc_number (B := Sample.builtins) Sample.slow_registry
    (Sample.arabic_one ++ Sample.arabic_two ++ Sample.arabic_three)
  = ([Carrier.FMCSA_BASE_URL
      ++ Sample.arabic_one ++ Sample.arabic_two ++ Sample.arabic_three
      ++ "?webKey=test-key"],
     Raise (HTTPException 504 "FMCSA API request timed out")).
Proof. reflexivity. Qed.

Example superscript_digit_is_requested :
  fst (Carrier.validate_mc_number (B := Sample.builtins) Sample.slow_registry
         ("12" ++ Sample.superscript_two))
  = [Carrier.FMCSA_BASE_URL ++ "12" ++ Sample.superscript_two ++ "?webKey=test-key"].
Proof. reflexivity. Qed.

Example no_break_space_is_stripped :
  fst (Carrier.validate_mc_number (B := Sample.builtins) Sample.slow_registry
         ("123" ++ Sample.no_break_space))
  = ["https://mobile.fmcsa.dot.gov/qc/services/carriers/123?webKey=test-key"].
Proof. reflexivity. Qed.

Example accented_letter_is_rejected :
  Carrier.validate_mc_number (B := Sample.builtins) Sample.slow_registry
    ("12" ++ Sample.e_acute)
  = ([], Raise (HTTPException 400
                  "Invalid MC number format. Must contain only digits after removing 'MC-' prefix")).
Proof. reflexivity. Qed.

(** A module that loaded has its key. *)
Lemma startup_key_configured
  (environ_key : option string) (get : string -> Carrier.get_outcome)
  (w : Carrier.World) :
  Carrier.startup environ_key get = Return w -> Carrier.key_configured w = true.
Proof.
  unfold Carrier.startup.
  destruct (Carrier.key_configured _) eqn:E; cbn [negb]; [|discriminate].
  intros H. injection H as <-. exact E.
Qed.

(** (C4) An identifier whose normalized form is empty or contains a
    character that is not a digit (one that [str.isdigit] rejects) is
    rejected with status 400, and the log of outbound calls is empty. *)
Theorem invalid_format_rejected_without_call
  {B : Builtins} (w : Carrier.World) (mc : string) :
  Carrier.key_configured w = true ->
  Carrier.clean mc = "" \/ has_non_digit (Carrier.clean mc) ->
  exists detail,
    Carrier.validate_mc_number w mc = ([], Raise (HTTPException 400 detail)).
Proof.
  intros Hk Hbad. apply validate_rejects; [assumption|].
  now apply not_isdigit.
Qed.

Lemma invalid_format_rejected_without_call_witness :
  Carrier.key_configured Sample.slow_registry = true
  /\ has_non_digit (U := Sample.unicode_excerpt)
       (Carrier.clean (U := Sample.unicode_excerpt) "abc")
  /\ exists detail,
       Carrier.validate_mc_number (B := Sample.builtins)
         Sample.slow_registry "abc"
       = ([], Raise (HTTPException 400 detail)).
Proof.
  assert (H : has_non_digit (U := Sample.unicode_excerpt)
                (Carrier.clean (U := Sample.unicode_excerpt) "abc")).
  { exists "A". split; [left; reflexivity | reflexivity]. }
  split; [reflexivity|]. split; [exact H|].
  apply (invalid_format_rejected_without_call (B := Sample.builtins)
           Sample.slow_registry "abc"); [reflexivity|].
  right. exact H.
Defined.

Lemma py_get_dict (d : list (string * pyval)) (k : string) (default : pyval) :
  py_get (PDict d) k default
  = Return (match dict_lookup d k with Some v => v | None => default end).
Proof. cbn. destruct (dict_lookup d k); reflexivity. Qed.

Lemma py_get_return (v : pyval) (k : string) (default x : pyval) :
  py_get v k default = Return x ->
  exists d, v = PDict d
            /\ x = match dict_lookup d k with Some y => y | None => default end.
Proof.
  destruct v; cbn; try discriminate.
  intros H. exists d. split; [reflexivity|].
  destruct (dict_lookup d k); congruence.
Qed.

Lemma eq_str_true (v : pyval) (s : string) :
  eq_str v s = true <-> v = PStr s.
Proof.
  destruct v; cbn; try (split; [discriminate | congruence]).
  rewrite String.eqb_eq. split; congruence.
Qed.

Lemma reraise_http_return {A : Type} (x : result A) (a : A) :
  reraise_http x = Return a -> x = Return a.
Proof. destruct x as [[]|]; cbn; congruence. Qed.

Lemma reraise_http_http {A : Type} (code : Z) (detail : string) :
  reraise_http (A := A) (Raise (HTTPException code detail))
  = Raise (HTTPException code detail).
Proof. reflexivity. Qed.

(** The response built from a carrier section that is a dict. *)
Lemma build_response_dict {B : Builtins}
  (c : string) (cd : list (string * pyval)) (name dot : pyval) :
  Carrier.build_response c (PDict cd) name dot
  = Return
      {| Carrier.success := true;
         Carrier.data :=
           {| Carrier.carrier :=
                {| Carrier.carrier_id := py_str dot;
                   Carrier.status :=
                     if eq_str (field cd "allowedToOperate") "Y"
                     then "Active" else "Inactive";
                   Carrier.carrier_name := name;
                   Carrier.dot_number := py_str dot;
                   Carrier.mc_number := c;
                   Carrier.status_reason :=
                     if truthy (field cd "oosDate") then Some "Out of Service"
                     else if negb (eq_str (field cd "allowedToOperate") "Y")
                          then Some "Not Authorized to Operate"
                          else None |};
              Carrier.transfer_contact := PNone;
              Carrier.next_steps := Carrier.make_next_steps name |} |}.
Proof.
  unfold Carrier.build_response. rewrite !py_get_dict. reflexivity.
Qed.

(** The body of a 200 response once its carrier section is known. *)
Lemma process_body_section {B : Builtins}
  (c : string) (body content : pyval) (cd : list (string * pyval)) :
  py_get body "content" (PDict []) = Return content ->
  truthy content = true ->
  py_get content "carrier" (PDict []) = Return (PDict cd) ->
  Carrier.process_body c body
  = if negb (truthy (name_of_section cd)) || negb (truthy (field cd "dotNumber"))
    then Raise (HTTPException 502 "Incomplete carrier data received from FMCSA API")
    else Carrier.build_response c (PDict cd) (name_of_section cd) (field cd "dotNumber").
Proof.
  intros Hc Ht Hs. unfold Carrier.process_body.
  rewrite Hc. cbn [bind]. rewrite Ht. cbn [negb].
  rewrite Hs. cbn [bind].
  repeat (rewrite py_get_dict; cbn [bind]).
  unfold name_of_section, field.
  destruct (dict_lookup cd "legalName"); reflexivity.
Qed.

Lemma process_body_return {B : Builtins}
  (c : string) (body : pyval) (r : Carrier.CarrierResponse) :
  Carrier.process_body c body = Return r ->
  exists content cd,
    py_get body "content" (PDict []) = Return content
    /\ truthy content = true
    /\ py_get content "carrier" (PDict []) = Return (PDict cd)
    /\ truthy (name_of_section cd) = true
    /\ truthy (field cd "dotNumber") = true
    /\ Carrier.build_response c (PDict cd) (name_of_section cd) (field cd "dotNumber")
       = Return r.
Proof.
  intros H. unfold Carrier.process_body in H.
  destruct (py_get body "content" (PDict [])) as [|content] eqn:Hc; [discriminate|].
  cbn [bind] in H.
  destruct (truthy content) eqn:Ht; [|discriminate]. cbn [negb] in H.
  destruct (py_get content "carrier" (PDict [])) as [|section] eqn:Hs; [discriminate|].
  cbn [bind] in H.
  destruct section as [| | | | | |cd]; try discriminate.
  pose proof (process_body_section c body content cd Hc Ht Hs) as E.
  unfold Carrier.process_body in E.
  rewrite Hc in E; cbn [bind] in E; rewrite Ht in E; cbn [negb] in E.
  rewrite Hs in E; cbn [bind] in E. rewrite E in H. clear E.
  exists content, cd.
  destruct (truthy (name_of_section cd)); [|discriminate].
  destruct (truthy (field cd "dotNumber")); [|discriminate].
  cbn in H. repeat split; assumption.
Qed.

Lemma process_outcome_return {B : Builtins}
  (c : string) (o : Carrier.get_outcome) (r : Carrier.CarrierResponse) :
  Carrier.process_outcome c o = Return r ->
  exists body,
    o = Carrier.Received {| Carrier.status_code := 200; Carrier.json := Some body |}
    /\ Carrier.process_body c body = Return r.
Proof.
  destruct o as [| |[code body]]; cbn; try discriminate.
  destruct (code =? 404); [discriminate|].
  destruct (code =? 401); [discriminate|].
  destruct (code =? 200) eqn:E; [|discriminate]. cbn [negb].
  apply Z.eqb_eq in E. subst code.
  destruct body as [body|]; [|discriminate].
  intros H. exists body. split; [reflexivity | assumption].
Qed.

(** A call that returns a response went through every step. *)
Lemma validate_return {B : Builtins}
  (w : Carrier.World) (mc : string) (log : list string) (r : Carrier.CarrierResponse) :
  Carrier.validate_mc_number w mc = (log, Return r) ->
  Carrier.key_configured w = true
  /\ mc <> ""
  /\ Str.isdigit (Carrier.clean mc) = true
  /\ log = [Carrier.url_of w (Carrier.clean mc)]
  /\ exists body,
       Carrier.requests_get w (Carrier.url_of w (Carrier.clean mc))
       = Carrier.Received {| Carrier.status_code := 200; Carrier.json := Some body |}
       /\ Carrier.process_body (Carrier.clean mc) body = Return r.
Proof.
  unfold Carrier.validate_mc_number.
  destruct (Carrier.key_configured w); cbn [negb]; [|discriminate].
  destruct (mc =? "")%string eqn:E; [discriminate|].
  apply String.eqb_neq in E.
  destruct (Str.isdigit (Carrier.clean mc)); cbn [negb]; [|discriminate].
  intros H. injection H as Hl Hr.
  apply reraise_http_return, process_outcome_return in Hr.
  repeat split; auto.
Qed.

Lemma carrier_section_gets (body v : pyval) :
  carrier_section body = Some v ->
  exists content,
    py_get body "content" (PDict []) = Return content
    /\ truthy content = true
    /\ py_get content "carrier" (PDict []) = Return v.
Proof.
  unfold carrier_section.
  destruct body as [| | | | | |d]; try discriminate.
  destruct (dict_lookup d "content") as [[| | | | | |c]|] eqn:Hc; try discriminate.
  intros Hs. exists (PDict c). rewrite !py_get_dict, Hc, Hs.
  repeat split. destruct c; [discriminate Hs | reflexivity].
Qed.

Lemma gets_carrier_section (body content : pyval) (cd : list (string * pyval)) :
  py_get body "content" (PDict []) = Return content ->
  py_get content "carrier" (PDict []) = Return (PDict cd) ->
  cd <> [] ->
  carrier_section body = Some (PDict cd).
Proof.
  intros Hc Hs Hne.
  apply py_get_return in Hc as (d & -> & ->).
  apply py_get_return in Hs as (c & Hc & Hs).
  unfold carrier_section.
  destruct (dict_lookup d "content") as [content|].
  - subst content. destruct (dict_lookup c "carrier"); congruence.
  - injection Hc as <-. cbn in Hs. congruence.
Qed.

Lemma named_section_nonempty (cd : list (string * pyval)) :
  truthy (name_of_section cd) = true -> cd <> [].
Proof. intros H ->. discriminate H. Qed.

(** (C7) The normalized identifier is the input uppercased, with ["MC-"]
    removed, then stripped: it is the path segment of the URL requested and
    the [mc_number] of every response returned.  On ASCII text it is the
    normalization written out in the words of the specification
    ([Spec.normalize]); outside ASCII the case and whitespace of a
    character are those of the runtime's Unicode table.  ["MC-123456"]
    gives ["123456"], and so does [" mc-123456 "]. *)
Theorem normalized_identifier
  {B : Builtins} (w : Carrier.World) (mc : string) :
  Carrier.key_configured w = true ->
  mc <> "" ->
  let n := Str.strip (Str.replace (Str.upper mc) "MC-" "") in
  (Str.isdigit n = true ->
   fst (Carrier.validate_mc_number w mc)
   = [Carrier.FMCSA_BASE_URL ++ n ++ "?webKey=" ++ Carrier.key_text w])
  /\ (forall r,
        snd (Carrier.validate_mc_number w mc) = Return r ->
        Carrier.mc_number (Carrier.carrier (Carrier.data r)) = n)
  /\ (ascii_text mc = true -> n = Spec.normalize mc)
  /\ Str.strip (Str.replace (Str.upper "MC-123456") "MC-" "") = "123456"
  /\ Str.strip (Str.replace (Str.upper " mc-123456 ") "MC-" "") = "123456".
Proof.
  intros Hk Hne n. split; [|split; [|split; [|split; reflexivity]]].
  - intros Hd. rewrite (validate_calls w mc Hk Hd). reflexivity.
  - intros r Hr.
    destruct (Carrier.validate_mc_number w mc) as [log res] eqn:E.
    cbn [snd] in Hr. subst res.
    apply validate_return in E as (_ & _ & _ & _ & body & _ & Hb).
    apply process_body_return in Hb as (content & cd & _ & _ & _ & _ & _ & Hb).
    rewrite build_response_dict in Hb. injection Hb as <-. reflexivity.
  - intros Ha. exact (clean_is_normalize mc Ha).
Qed.

Lemma normalized_identifier_witness :
  Carrier.key_configured (Sample.registry_with Sample.active_carrier) = true
  /\ fst (Carrier.validate_mc_number (B := Sample.builtins)
            (Sample.registry_with Sample.active_carrier) " mc-123456 ")
     = ["https://mobile.fmcsa.dot.gov/qc/services/carriers/123456?webKey=test-key"]
  /\ Spec.normalize " mc-123456 " = "123456"
  /\ exists r,
       snd (Carrier.validate_mc_number (B := Sample.builtins)
              (Sample.registry_with Sample.active_carrier) " mc-123456 ") = Return r
       /\ Carrier.mc_number (Carrier.carrier (Carrier.data r)) = "123456"
       /\ Carrier.status (Carrier.carrier (Carrier.data r)) = "Active"
       /\ Carrier.status_reason (Carrier.carrier (Carrier.data r)) = None.
Proof.
  destruct (normalized_identifier (B := Sample.builtins)
              (Sample.registry_with Sample.active_carrier) " mc-123456 ")
    as (Hurl & Hmc & Hspec & _); [reflexivity | discriminate |].
  split; [reflexivity|]. split; [exact (Hurl eq_refl)|].
  split; [rewrite <- (Hspec eq_refl); reflexivity|].
  eexists. split; [reflexivity|]. split; [|split; reflexivity].
  apply Hmc. reflexivity.
Defined.

(** (C10) Every occurrence of ["MC-"] in the uppercased input is removed,
    wherever it stands: the text before and the text after an occurrence are
    cleaned independently and joined.  ["123MC-456"] normalizes to
    ["123456"], passes the digit check and is requested as ["123456"]. *)
Theorem mc_removed_everywhere
  {B : Builtins} (w : Carrier.World) (mc a b : string) :
  Carrier.key_configured w = true ->
  Str.upper mc = a ++ "MC-" ++ b ->
  Carrier.clean mc
  = Str.strip (Str.replace a "MC-" "" ++ Str.replace b "MC-" "")
  /\ Carrier.clean "123MC-456" = "123456"
  /\ Str.isdigit (Carrier.clean "123MC-456") = true
  /\ Carrier.validate_mc_number w "123MC-456"
     = ([Carrier.FMCSA_BASE_URL ++ "123456" ++ "?webKey=" ++ Carrier.key_text w],
        reraise_http
          (Carrier.process_outcome "123456"
             (Carrier.requests_get w
                (Carrier.FMCSA_BASE_URL ++ "123456" ++ "?webKey=" ++ Carrier.key_text w)))).
Proof.
  intros Hk Hu. split; [|split; [reflexivity|split; [reflexivity|]]].
  - unfold Carrier.clean, Str.replace. rewrite Hu.
    rewrite replace_from_mc_app by lia. reflexivity.
  - rewrite (validate_calls w "123MC-456" Hk eq_refl). reflexivity.
Qed.

Lemma mc_removed_everywhere_witness :
  Carrier.key_configured Sample.slow_registry = true
  /\ Str.upper (U := Sample.unicode_excerpt) "123mc-456" = "123" ++ "MC-" ++ "456"
  /\ Carrier.clean (U := Sample.unicode_excerpt) "123mc-456" = "123456"
  /\ fst (Carrier.validate_mc_number (B := Sample.builtins)
            Sample.slow_registry "123MC-456")
     = ["https://mobile.fmcsa.dot.gov/qc/services/carriers/123456?webKey=test-key"].
Proof.
  destruct (mc_removed_everywhere (B := Sample.builtins)
              Sample.slow_registry "123mc-456" "123" "456")
    as (Hc & _ & _ & Hv); [reflexivity | reflexivity |].
  split; [reflexivity|]. split; [reflexivity|]. split.
  - etransitivity; [exact Hc | reflexivity].
  - rewrite Hv. reflexivity.
Defined.

(** (C5) In every response returned, [status] is ["Active"] exactly when the
    registry's [allowedToOperate] is the string ["Y"] and ["Inactive"]
    otherwise; [status_reason] is ["Out of Service"] whenever the registry
    gives an out-of-service date, whatever the authorization;
    ["Not Authorized to Operate"] exactly when the carrier is not authorized
    and there is no such date; and absent otherwise. *)
Theorem status_derivation
  {B : Builtins} (w : Carrier.World) (mc : string)
  (log : list string) (r : Carrier.CarrierResponse) :
  Carrier.validate_mc_number w mc = (log, Return r) ->
  exists body cd,
    Carrier.requests_get w (Carrier.url_of w (Carrier.clean mc))
    = Carrier.Received {| Carrier.status_code := 200; Carrier.json := Some body |}
    /\ carrier_section body = Some (PDict cd)
    /\ let allowed := field cd "allowedToOperate" in
       let oos := truthy (field cd "oosDate") in
       let c := Carrier.carrier (Carrier.data r) in
       (Carrier.status c = "Active" <-> allowed = PStr "Y")
       /\ (Carrier.status c = "Inactive" <-> allowed <> PStr "Y")
       /\ (oos = true -> Carrier.status_reason c = Some "Out of Service")
       /\ (Carrier.status_reason c = Some "Not Authorized to Operate"
           <-> allowed <> PStr "Y" /\ oos = false)
       /\ (allowed = PStr "Y" -> oos = false -> Carrier.status_reason c = None).
Proof.
  intros H.
  apply validate_return in H as (_ & _ & _ & _ & body & Hget & Hb).
  apply process_body_return in Hb as (content & cd & Hc & _ & Hs & Hn & _ & Hb).
  exists body, cd. split; [exact Hget|]. split.
  { eapply gets_carrier_section; eauto using named_section_nonempty. }
  rewrite build_response_dict in Hb. injection Hb as <-. cbn.
  pose proof (eq_str_true (field cd "allowedToOperate") "Y") as Ha.
  destruct (eq_str (field cd "allowedToOperate") "Y");
    destruct (truthy (field cd "oosDate")); cbn;
    repeat split; intros; try congruence; try tauto;
    try (apply Ha; reflexivity);
    try (intros E; apply Ha in E; discriminate);
    try (exfalso; intuition congruence).
Qed.

Lemma status_derivation_witness :
  exists r,
    Carrier.validate_mc_number (B := Sample.builtins)
      (Sample.registry_with Sample.oos_carrier) "MC-123456"
    = (["https://mobile.fmcsa.dot.gov/qc/services/carriers/123456?webKey=test-key"],
       Return r)
    /\ Carrier.status (Carrier.carrier (Carrier.data r)) = "Active"
    /\ Carrier.status_reason (Carrier.carrier (Carrier.data r)) = Some "Out of Service".
Proof.
  eexists. split; [reflexivity|].
  destruct (status_derivation (B := Sample.builtins)
              (Sample.registry_with Sample.oos_carrier) "MC-123456" _ _ eq_refl)
    as (body & cd & Hget & Hs & Hst & _ & Hoos & _).
  injection Hget as <-. injection Hs as <-.
  split; [apply Hst; reflexivity | apply Hoos; reflexivity].
Defined.

(** (C6) What each outcome of the registry call becomes: a timeout is 504;
    another transport failure is 502 with the cause in the message; a 404
    answer is 404 with the identifier in the message; a 401 answer is 502
    (invalid key); any other answer that is not 200 is 502 with the status
    in the message; a 200 answer whose body is not JSON is 502. *)
Theorem registry_outcome_mapping
  {B : Builtins} (w : Carrier.World) (mc : string) :
  Carrier.key_configured w = true ->
  Str.isdigit (Carrier.clean mc) = true ->
  let c := Carrier.clean mc in
  let o := Carrier.requests_get w (Carrier.url_of w c) in
  let res := snd (Carrier.validate_mc_number w mc) in
  (o = Carrier.Timeout ->
   res = Raise (HTTPException 504 "FMCSA API request timed out"))
  /\ (forall cause, o = Carrier.RequestException cause ->
      res = Raise (HTTPException 502 ("Error connecting to FMCSA API: " ++ cause)))
  /\ (forall resp, o = Carrier.Received resp ->
      Carrier.status_code resp = 404 ->
      res = Raise (HTTPException 404 ("Carrier with MC number " ++ c ++ " not found")))
  /\ (forall resp, o = Carrier.Received resp ->
      Carrier.status_code resp = 401 ->
      res = Raise (HTTPException 502 "Invalid FMCSA API key"))
  /\ (forall resp, o = Carrier.Received resp ->
      Carrier.status_code resp <> 404 ->
      Carrier.status_code resp <> 401 ->
      Carrier.status_code resp <> 200 ->
      res = Raise (HTTPException 502
                     ("FMCSA API error: " ++ Str.of_int (Carrier.status_code resp))))
  /\ (forall resp, o = Carrier.Received resp ->
      Carrier.status_code resp = 200 ->
      Carrier.json resp = None ->
      res = Raise (HTTPException 502 "Invalid JSON response from FMCSA API")).
Proof.
  intros Hk Hd c o res. subst res.
  rewrite (validate_calls w mc Hk Hd). cbn [snd]. fold c. fold o.
  repeat split.
  - intros ->. reflexivity.
  - intros cause ->. reflexivity.
  - intros resp -> E. cbn. rewrite E. reflexivity.
  - intros resp -> E. cbn. rewrite E. reflexivity.
  - intros resp -> E1 E2 E3. cbn.
    apply Z.eqb_neq in E1, E2, E3. rewrite E1, E2, E3. reflexivity.
  - intros resp -> E Hj. cbn. rewrite E, Hj. reflexivity.
Qed.

Lemma registry_outcome_mapping_witness :
  Carrier.key_configured Sample.slow_registry = true
  /\ Str.isdigit (U := Sample.unicode_excerpt)
       (Carrier.clean (U := Sample.unicode_excerpt) "MC-123456") = true
  /\ Carrier.validate_mc_number (B := Sample.builtins) Sample.slow_registry "MC-123456"
     = (["https://mobile.fmcsa.dot.gov/qc/services/carriers/123456?webKey=test-key"],
        Raise (HTTPException 504 "FMCSA API request timed out"))
  /\ snd (Carrier.validate_mc_number (B := Sample.builtins)
            (Sample.registry (Sample.status_only 503)) "MC-123456")
     = Raise (HTTPException 502 "FMCSA API error: 503").
Proof.
  split; [reflexivity|]. split; [reflexivity|]. split.
  - destruct (registry_outcome_mapping (B := Sample.builtins)
                Sample.slow_registry "MC-123456" eq_refl eq_refl) as (Ht & _).
    specialize (Ht eq_refl).
    destruct (Carrier.validate_mc_number Sample.slow_registry "MC-123456")
      as [log res] eqn:E.
    cbn [snd] in Ht. subst res.
    apply (f_equal fst) in E. cbn [fst] in E. rewrite <- E. reflexivity.
  - destruct (registry_outcome_mapping (B := Sample.builtins)
                (Sample.registry (Sample.status_only 503)) "MC-123456"
                eq_refl eq_refl) as (_ & _ & _ & _ & Ho & _).
    exact (Ho _ eq_refl ltac:(discriminate) ltac:(discriminate) ltac:(discriminate)).
Defined.

(** (C9) The carrier name is the legal name, and the trade name when the
    carrier section has no legal name; when the name so obtained or the DOT
    number is absent or empty the call fails with status 502, otherwise the
    response carries that name.  A legal name that is present but empty
    fails with 502, whatever the trade name. *)
Theorem carrier_name_and_dot_required
  {B : Builtins} (w : Carrier.World) (mc : string)
  (body : pyval) (cd : list (string * pyval)) :
  Carrier.key_configured w = true ->
  Str.isdigit (Carrier.clean mc) = true ->
  Carrier.requests_get w (Carrier.url_of w (Carrier.clean mc))
  = Carrier.Received {| Carrier.status_code := 200; Carrier.json := Some body |} ->
  carrier_section body = Some (PDict cd) ->
  let res := snd (Carrier.validate_mc_number w mc) in
  let incomplete_data :=
    Raise (HTTPException 502 "Incomplete carrier data received from FMCSA API") in
  (truthy (name_of_section cd) = false \/ truthy (field cd "dotNumber") = false ->
   res = incomplete_data)
  /\ (truthy (name_of_section cd) = true ->
      truthy (field cd "dotNumber") = true ->
      exists r,
        res = Return r
        /\ Carrier.carrier_name (Carrier.carrier (Carrier.data r)) = name_of_section cd)
  /\ (dict_lookup cd "legalName" = Some (PStr "") -> res = incomplete_data).
Proof.
  intros Hk Hd Hget Hs res incomplete_data. subst res incomplete_data.
  rewrite (validate_calls w mc Hk Hd). cbn [snd]. rewrite Hget.
  apply carrier_section_gets in Hs as (content & Hc & Ht & Hs).
  cbn. rewrite (process_body_section (Carrier.clean mc) body content cd Hc Ht Hs).
  assert (Hbad : truthy (name_of_section cd) = false
                 \/ truthy (field cd "dotNumber") = false ->
                 reraise_http
                   (if negb (truthy (name_of_section cd))
                       || negb (truthy (field cd "dotNumber"))
                    then Raise (HTTPException 502
                                  "Incomplete carrier data received from FMCSA API")
                    else Carrier.build_response (Carrier.clean mc) (PDict cd)
                           (name_of_section cd) (field cd "dotNumber"))
                 = Raise (HTTPException 502
                            "Incomplete carrier data received from FMCSA API")).
  { intros [E | E]; rewrite E; cbn [negb orb]; [reflexivity|].
    rewrite orb_true_r. reflexivity. }
  split; [exact Hbad|]. split.
  - intros Hn Hdot. rewrite Hn, Hdot. cbn [negb orb].
    rewrite build_response_dict. eexists. split; reflexivity.
  - intros Hl. apply Hbad. left. unfold name_of_section. rewrite Hl. reflexivity.
Qed.

Lemma carrier_name_and_dot_required_witness :
  carrier_section (Sample.body_of Sample.unnamed_carrier)
  = Some (PDict Sample.unnamed_carrier)
  /\ dict_lookup Sample.unnamed_carrier "dbaName" = Some (PStr "ACME")
  /\ snd (Carrier.validate_mc_number (B := Sample.builtins)
            (Sample.registry_with Sample.unnamed_carrier) "MC-123456")
     = Raise (HTTPException 502 "Incomplete carrier data received from FMCSA API").
Proof.
  split; [reflexivity|]. split; [reflexivity|].
  destruct (carrier_name_and_dot_required (B := Sample.builtins)
              (Sample.registry_with Sample.unnamed_carrier) "MC-123456"
              (Sample.body_of Sample.unnamed_carrier) Sample.unnamed_carrier
              eq_refl eq_refl eq_refl eq_refl) as (_ & _ & H).
  exact (H eq_refl).
Defined.

(** (C1, as stated) A body whose [content] is a non-empty object without a
    [carrier] key, or with an empty one, lacks a carrier section, and the
    call fails with status 502, not 404. *)
Lemma missing_carrier_section_counterexample :
  lacks_carrier_section Sample.body_without_carrier = true
  /\ Carrier.validate_mc_number (B := Sample.builtins)
       (Sample.registry (Sample.ok Sample.body_without_carrier)) "MC-123456"
     = (["https://mobile.fmcsa.dot.gov/qc/services/carriers/123456?webKey=test-key"],
        Raise (HTTPException 502 "Incomplete carrier data received from FMCSA API"))
  /\ lacks_carrier_section (Sample.body_of []) = true
  /\ Carrier.validate_mc_number (B := Sample.builtins)
       (Sample.registry_with []) "MC-123456"
     = (["https://mobile.fmcsa.dot.gov/qc/services/carriers/123456?webKey=test-key"],
        Raise (HTTPException 502 "Incomplete carrier data received from FMCSA API")).
Proof. repeat split; reflexivity. Qed.

(** (C1, amended) When the parsed body is an object whose [content] entry is
    absent or empty, the call fails with status 404.  When [content] is a
    non-empty object whose [carrier] entry is absent or an empty object, the
    call fails with status 502 (incomplete carrier data). *)
Theorem empty_content_not_found
  {B : Builtins} (w : Carrier.World) (mc : string) (d : list (string * pyval)) :
  Carrier.key_configured w = true ->
  Str.isdigit (Carrier.clean mc) = true ->
  Carrier.requests_get w (Carrier.url_of w (Carrier.clean mc))
  = Carrier.Received {| Carrier.status_code := 200; Carrier.json := Some (PDict d) |} ->
  let res := snd (Carrier.validate_mc_number w mc) in
  ((dict_lookup d "content" = None
    \/ exists content, dict_lookup d "content" = Some content /\ truthy content = false) ->
   res = Raise (HTTPException 404
                  ("No carrier data found for MC number: " ++ Carrier.clean mc)))
  /\ (forall c,
        dict_lookup d "content" = Some (PDict c) ->
        c <> [] ->
        dict_lookup c "carrier" = None \/ dict_lookup c "carrier" = Some (PDict []) ->
        lacks_carrier_section (PDict d) = true
        /\ res = Raise (HTTPException 502
                          "Incomplete carrier data received from FMCSA API")).
Proof.
  intros Hk Hd Hget res. subst res.
  rewrite (validate_calls w mc Hk Hd). cbn [snd]. rewrite Hget. cbn.
  split.
  - intros [E | (content & E & Ht)]; unfold Carrier.process_body;
      rewrite py_get_dict, E; cbn [bind]; [reflexivity|].
    rewrite Ht. reflexivity.
  - intros c Hc Hne Hs. split.
    + unfold lacks_carrier_section, carrier_section. rewrite Hc.
      destruct Hs as [-> | ->]; reflexivity.
    + rewrite (process_body_section (Carrier.clean mc) (PDict d) (PDict c) []).
      * reflexivity.
      * rewrite py_get_dict, Hc. reflexivity.
      * destruct c; [congruence | reflexivity].
      * rewrite py_get_dict. destruct Hs as [-> | ->]; reflexivity.
Qed.

Lemma empty_content_not_found_witness :
  Carrier.key_configured (Sample.registry (Sample.ok Sample.body_without_content)) = true
  /\ Str.isdigit (U := Sample.unicode_excerpt)
       (Carrier.clean (U := Sample.unicode_excerpt) "MC-123456") = true
  /\ snd (Carrier.validate_mc_number (B := Sample.builtins)
            (Sample.registry (Sample.ok Sample.body_without_content)) "MC-123456")
     = Raise (HTTPException 404 "No carrier data found for MC number: 123456").
Proof.
  split; [reflexivity|]. split; [reflexivity|].
  destruct (empty_content_not_found (B := Sample.builtins)
              (Sample.registry (Sample.ok Sample.body_without_content)) "MC-123456"
              [("content", PList []); ("retrievalDate", PStr "2024-01-01")]
              eq_refl eq_refl eq_refl) as (H & _).
  apply H. right. exists (PList []). split; reflexivity.
Defined.

(** ** The load lookup, step by step *)

Lemma get_load_details_frame {B : Builtins}
  (w : Loads.World) (ref : string) (df : Loads.DataFrame) :
  Loads.csv_exists w = true ->
  Loads.read_csv w = Loads.Frame df ->
  Loads.get_load_details w ref
  = ([Loads.PathExists; Loads.ReadCsv], reraise_http (Loads.process_frame df ref)).
Proof.
  intros He Hr. unfold Loads.get_load_details. rewrite He, Hr. reflexivity.
Qed.

Lemma item_return (ld : list (string * pyval)) (k : string) (v : pyval) :
  Loads.item ld k = Return v -> dict_lookup ld k = Some v.
Proof.
  unfold Loads.item. destruct (dict_lookup ld k); congruence.
Qed.

(** A response that is returned reports success and carries the details. *)
Lemma build_details_return {B : Builtins}
  (ld : list (string * pyval)) (r : Loads.LoadResponse) :
  Loads.build_details ld = Return r ->
  exists details,
    r = {| Loads.success := true; Loads.data := Some details; Loads.error := None |}.
Proof.
  unfold Loads.build_details.
  repeat match goal with
         | |- context [bind ?x _] =>
             destruct x; cbn [bind]; [discriminate|]
         end.
  intros H. injection H as <-. eauto.
Qed.

Lemma process_row_return {B : Builtins}
  (cols : list string) (row : list pyval) (r : Loads.LoadResponse) :
  Loads.process_row cols row = Return r ->
  Loads.missing_fields (Loads.to_dict cols row) = []
  /\ Loads.build_details (Loads.to_dict cols row) = Return r.
Proof.
  unfold Loads.process_row.
  destruct (Loads.missing_fields (Loads.to_dict cols row)); [|discriminate].
  destruct (Loads.build_details (Loads.to_dict cols row)) as [[]|]; try discriminate.
  intros H. split; [reflexivity | exact H].
Qed.

Lemma process_frame_return {B : Builtins}
  (df : Loads.DataFrame) (ref : string) (r : Loads.LoadResponse) :
  Loads.process_frame df ref = Return r ->
  Str.startswith ref "LOAD" = true
  /\ exists row rest,
       Loads.select df ref = Return (row :: rest)
       /\ Loads.process_row (Loads.columns df) row = Return r.
Proof.
  unfold Loads.process_frame.
  destruct (Str.startswith ref "LOAD"); cbn [negb]; [|discriminate].
  destruct (Loads.select df ref) as [|[|row rest]]; cbn [bind]; try discriminate.
  intros H. split; [reflexivity|]. exists row, rest. split; [reflexivity | exact H].
Qed.

Lemma get_load_details_return {B : Builtins}
  (w : Loads.World) (ref : string) (r : Loads.LoadResponse) :
  snd (Loads.get_load_details w ref) = Return r ->
  exists df,
    Loads.read_csv w = Loads.Frame df
    /\ Loads.process_frame df ref = Return r.
Proof.
  unfold Loads.get_load_details.
  destruct (Loads.csv_exists w); cbn [negb snd]; [|discriminate].
  intros H. apply reraise_http_return in H.
  destruct (Loads.read_csv w) as [| | |df]; try discriminate.
  exists df. split; [reflexivity | exact H].
Qed.

Lemma load_response_shape {B : Builtins}
  (w : Loads.World) (ref : string) (r : Loads.LoadResponse) :
  snd (Loads.get_load_details w ref) = Return r ->
  exists details,
    r = {| Loads.success := true; Loads.data := Some details; Loads.error := None |}.
Proof.
  intros H.
  apply get_load_details_return in H as (df & _ & H).
  apply process_frame_return in H as (_ & row & rest & _ & H).
  apply process_row_return in H as (_ & H).
  now apply build_details_return in H.
Qed.

Lemma reraise_http_raise {A : Type} (x : result A) (e : exn) :
  reraise_http x = Raise e -> exists code detail, e = HTTPException code detail.
Proof.
  destruct x as [[]|]; cbn; intros H; try discriminate;
    injection H as <-; eauto.
Qed.

Lemma load_failure_shape {B : Builtins}
  (w : Loads.World) (ref : string) (e : exn) :
  snd (Loads.get_load_details w ref) = Raise e ->
  exists code detail, e = HTTPException code detail.
Proof.
  unfold Loads.get_load_details.
  destruct (Loads.csv_exists w); cbn [negb snd].
  - apply reraise_http_raise.
  - intros H. injection H as <-. eauto.
Qed.

(** (C2, as stated) With the dataset file missing, empty or malformed, a
    reference number that does not start with ["LOAD"] gets status 503, not
    400. *)
Lemma prefix_check_before_read_counterexample :
  Str.startswith "abc" "LOAD" = false
  /\ Loads.get_load_details (B := Sample.builtins) Sample.missing_file "abc"
     = ([Loads.PathExists],
        Raise (HTTPException 503 "Load data file not available"))
  /\ Loads.get_load_details (B := Sample.builtins) Sample.empty_file "abc"
     = ([Loads.PathExists; Loads.ReadCsv],
        Raise (HTTPException 503 "Load data file is empty"))
  /\ Loads.get_load_details (B := Sample.builtins) Sample.malformed_file "abc"
     = ([Loads.PathExists; Loads.ReadCsv],
        Raise (HTTPException 503 "Error parsing load data file")).
Proof. repeat split; reflexivity. Qed.

(** (C2, amended) A reference number that does not start with ["LOAD"] is
    rejected with status 400 once the dataset file has been located, read
    and parsed; when the file is missing, empty or malformed the call fails
    with status 503 instead. *)
Theorem bad_prefix_rejected_after_read
  {B : Builtins} (w : Loads.World) (ref : string) :
  Str.startswith ref "LOAD" = false ->
  (forall df,
     Loads.csv_exists w = true ->
     Loads.read_csv w = Loads.Frame df ->
     Loads.get_load_details w ref
     = ([Loads.PathExists; Loads.ReadCsv],
        Raise (HTTPException 400
                 "Invalid reference number format. Must start with 'LOAD'")))
  /\ (Loads.csv_exists w = false ->
      Loads.get_load_details w ref
      = ([Loads.PathExists],
         Raise (HTTPException 503 "Load data file not available")))
  /\ (Loads.csv_exists w = true ->
      Loads.read_csv w = Loads.EmptyDataError ->
      Loads.get_load_details w ref
      = ([Loads.PathExists; Loads.ReadCsv],
         Raise (HTTPException 503 "Load data file is empty")))
  /\ (Loads.csv_exists w = true ->
      Loads.read_csv w = Loads.ParserError ->
      Loads.get_load_details w ref
      = ([Loads.PathExists; Loads.ReadCsv],
         Raise (HTTPException 503 "Error parsing load data file"))).
Proof.
  intros Hp. repeat split.
  - intros df He Hr. rewrite (get_load_details_frame w ref df He Hr).
    unfold Loads.process_frame. rewrite Hp. reflexivity.
  - intros He. unfold Loads.get_load_details. rewrite He. reflexivity.
  - intros He Hr. unfold Loads.get_load_details. rewrite He, Hr. reflexivity.
  - intros He Hr. unfold Loads.get_load_details. rewrite He, Hr. reflexivity.
Qed.

Lemma bad_prefix_rejected_after_read_witness :
  Str.startswith "abc" "LOAD" = false
  /\ Loads.get_load_details (B := Sample.builtins)
       (Sample.file_of [Sample.complete_row "LOAD001"]) "abc"
     = ([Loads.PathExists; Loads.ReadCsv],
        Raise (HTTPException 400
                 "Invalid reference number format. Must start with 'LOAD'")).
Proof.
  split; [reflexivity|].
  destruct (bad_prefix_rejected_after_read (B := Sample.builtins)
              (Sample.file_of [Sample.complete_row "LOAD001"]) "abc" eq_refl)
    as (H & _).
  exact (H _ eq_refl eq_refl).
Defined.

(** (C3, as stated) No input makes [get_load_details] return a
    [LoadResponse] whose [success] is false. *)
Lemma failure_in_body_counterexample :
  ~ exists (B : Builtins) (w : Loads.World) (ref : string) (r : Loads.LoadResponse),
      snd (Loads.get_load_details w ref) = Return r
      /\ Loads.success r = false.
Proof.
  intros (B & w & ref & r & H & Hs).
  apply load_response_shape in H as (details & ->).
  discriminate Hs.
Qed.

(** (C3, amended) Every failure of [get_load_details] is a raised
    [HTTPException], a status code with a detail message; every
    [LoadResponse] it returns has [success] true, [data] populated and no
    [error]. *)
Theorem load_failures_are_http_errors
  {B : Builtins} (w : Loads.World) (ref : string) :
  (exists code detail,
     snd (Loads.get_load_details w ref) = Raise (HTTPException code detail))
  \/ (exists details,
        snd (Loads.get_load_details w ref)
        = Return {| Loads.success := true;
                    Loads.data := Some details;
                    Loads.error := None |}).
Proof.
  destruct (snd (Loads.get_load_details w ref)) as [e|r] eqn:E.
  - left. apply load_failure_shape in E as (code & detail & ->). eauto.
  - right. apply load_response_shape in E as (details & ->). eauto.
Qed.

(** Reading the reference number of a row through its dict or through the
    column position gives the same comparison. *)
Lemma row_matches_nth (cols : list string) (ref : string) :
  forall (row : list pyval) (i : nat),
    Loads.column_index cols "reference_number" = Some i ->
    row_matches cols row ref = eq_str (nth i row PNone) ref.
Proof.
  unfold row_matches, Loads.to_dict.
  induction cols as [|c cols IH]; intros row i Hi; [discriminate|].
  cbn [Loads.column_index] in Hi.
  destruct row as [|v row].
  - cbn. now destruct i.
  - cbn [combine dict_lookup].
    destruct (c =? "reference_number")%string.
    + injection Hi as <-. reflexivity.
    + destruct (Loads.column_index cols "reference_number") as [j|]; [|discriminate].
      injection Hi as <-. cbn [nth]. now apply IH.
Qed.

Lemma row_matches_column (cols : list string) (ref : string) :
  forall row : list pyval,
    row_matches cols row ref = true ->
    exists i, Loads.column_index cols "reference_number" = Some i.
Proof.
  unfold row_matches, Loads.to_dict.
  induction cols as [|c cols IH]; intros row H; [discriminate|].
  cbn [Loads.column_index].
  destruct (c =? "reference_number")%string eqn:E; [eauto|].
  destruct row as [|v row]; [discriminate|].
  cbn [combine dict_lookup] in H. rewrite E in H.
  destruct (IH row H) as (j & ->). cbn. eauto.
Qed.

(** The selection starts with the first row that matches. *)
Lemma select_first_match
  (df : Loads.DataFrame) (ref : string) (before after : list (list pyval))
  (row : list pyval) :
  Loads.rows df = (before ++ row :: after)%list ->
  (forall r, In r before -> row_matches (Loads.columns df) r ref = false) ->
  row_matches (Loads.columns df) row ref = true ->
  exists rest, Loads.select df ref = Return (row :: rest).
Proof.
  intros Hrows Hbefore Hrow.
  destruct (row_matches_column _ _ _ Hrow) as (i & Hi).
  unfold Loads.select. rewrite Hi, Hrows.
  rewrite filter_app. cbn [filter].
  rewrite <- (row_matches_nth (Loads.columns df) ref row i Hi), Hrow.
  replace (filter _ before) with (@nil (list pyval)); [cbn; eauto|].
  symmetry. clear Hrows. induction before as [|r before IH]; [reflexivity|].
  cbn [filter].
  rewrite <- (row_matches_nth (Loads.columns df) ref r i Hi).
  rewrite (Hbefore r (or_introl eq_refl)).
  apply IH. intros r' Hr'. apply Hbefore. now right.
Qed.

Lemma incomplete_missing (cols : list string) (row : list pyval) :
  incomplete cols row = true ->
  Loads.missing_fields (Loads.to_dict cols row) <> [].
Proof.
  unfold incomplete, Loads.missing_fields.
  intros H E. apply existsb_exists in H as (f & Hin & Hf).
  assert (Hm : In f (filter
                       (fun field =>
                          match dict_lookup (Loads.to_dict cols row) field with
                          | Some v => Loads.pd_isna v
                          | None => true
                          end) Loads.required_fields)).
  { apply filter_In. split; assumption. }
  rewrite E in Hm. exact Hm.
Qed.

Lemma process_row_missing {B : Builtins} (cols : list string) (row : list pyval) :
  Loads.missing_fields (Loads.to_dict cols row) <> [] ->
  Loads.process_row cols row
  = Raise (HTTPException 500
             ("Missing required fields in load data: "
              ++ Str.join ", " (Loads.missing_fields (Loads.to_dict cols row)))).
Proof.
  intros H. unfold Loads.process_row.
  destruct (Loads.missing_fields (Loads.to_dict cols row)); [congruence|reflexivity].
Qed.

(** (C8, as stated) A row that matches the query and has no rate does not
    make the call fail with status 500 when an earlier row with the same
    reference number is complete (the earlier row is returned), nor when the
    reference number does not start with ["LOAD"] (status 400). *)
Lemma incomplete_row_counterexample :
  In (Sample.row_without_rate "LOAD001") Sample.duplicated_rows
  /\ row_matches Sample.loads_columns (Sample.row_without_rate "LOAD001") "LOAD001" = true
  /\ incomplete Sample.loads_columns (Sample.row_without_rate "LOAD001") = true
  /\ (exists details,
        snd (Loads.get_load_details (B := Sample.builtins)
               (Sample.file_of Sample.duplicated_rows) "LOAD001")
        = Return {| Loads.success := true;
                    Loads.data := Some details;
                    Loads.error := None |})
  /\ row_matches Sample.loads_columns (Sample.row_without_rate "REF001") "REF001" = true
  /\ snd (Loads.get_load_details (B := Sample.builtins)
            (Sample.file_of [Sample.row_without_rate "REF001"]) "REF001")
     = Raise (HTTPException 400
                "Invalid reference number format. Must start with 'LOAD'").
Proof.
  split; [right; left; reflexivity|].
  split; [reflexivity|]. split; [reflexivity|].
  split; [eexists; reflexivity|].
  split; reflexivity.
Qed.

(** (C8, amended) When the reference number starts with ["LOAD"] and the
    first row of the dataset that matches it has one of the six required
    fields absent or null/NaN, the call fails with status 500 and a message
    that lists exactly the missing fields, in the order of the required
    fields. *)
Theorem first_match_incomplete_is_500
  {B : Builtins} (w : Loads.World) (ref : string) (df : Loads.DataFrame)
  (before after : list (list pyval)) (row : list pyval) :
  Loads.csv_exists w = true ->
  Loads.read_csv w = Loads.Frame df ->
  Str.startswith ref "LOAD" = true ->
  Loads.rows df = (before ++ row :: after)%list ->
  (forall r, In r before -> row_matches (Loads.columns df) r ref = false) ->
  row_matches (Loads.columns df) row ref = true ->
  incomplete (Loads.columns df) row = true ->
  let load_data := Loads.to_dict (Loads.columns df) row in
  let missing := Loads.missing_fields load_data in
  Loads.get_load_details w ref
  = ([Loads.PathExists; Loads.ReadCsv],
     Raise (HTTPException 500
              ("Missing required fields in load data: " ++ Str.join ", " missing)))
  /\ missing <> []
  /\ (forall f,
        In f missing
        <-> In f Loads.required_fields
            /\ (dict_lookup load_data f = None
                \/ exists v, dict_lookup load_data f = Some v
                             /\ Loads.pd_isna v = true)).
Proof.
  intros He Hr Hp Hrows Hbefore Hrow Hinc load_data missing.
  pose proof (incomplete_missing _ _ Hinc) as Hne.
  split; [|split; [exact Hne|]].
  - rewrite (get_load_details_frame w ref df He Hr).
    destruct (select_first_match df ref before after row Hrows Hbefore Hrow)
      as (rest & Hsel).
    unfold Loads.process_frame. rewrite Hp, Hsel. cbn [negb bind].
    rewrite (process_row_missing _ _ Hne). reflexivity.
  - intros f. subst missing. unfold Loads.missing_fields.
    rewrite filter_In. subst load_data.
    destruct (dict_lookup (Loads.to_dict (Loads.columns df) row) f) as [v|].
    + split; intros [Hin Hv]; (split; [exact Hin|]).
      * right. eauto.
      * destruct Hv as [Hv | (v' & Hv' & Hna)]; [discriminate | congruence].
    + split; intros [Hin _]; (split; [exact Hin|]); [now left | reflexivity].
Qed.

Lemma first_match_incomplete_is_500_witness :
  row_matches Sample.loads_columns (Sample.complete_row "LOAD002") "LOAD001" = false
  /\ row_matches Sample.loads_columns (Sample.row_without_rate "LOAD001") "LOAD001" = true
  /\ incomplete Sample.loads_columns (Sample.row_without_rate "LOAD001") = true
  /\ Loads.get_load_details (B := Sample.builtins)
       (Sample.file_of [Sample.complete_row "LOAD002";
                        Sample.row_without_rate "LOAD001"]) "LOAD001"
     = ([Loads.PathExists; Loads.ReadCsv],
        Raise (HTTPException 500 "Missing required fields in load data: rate")).
Proof.
  split; [reflexivity|]. split; [reflexivity|]. split; [reflexivity|].
  destruct (first_match_incomplete_is_500 (B := Sample.builtins)
              (Sample.file_of [Sample.complete_row "LOAD002";
                               Sample.row_without_rate "LOAD001"])
              "LOAD001"
              {| Loads.columns := Sample.loads_columns;
                 Loads.rows := [Sample.complete_row "LOAD002";
                                Sample.row_without_rate "LOAD001"] |}
              [Sample.complete_row "LOAD002"] []
              (Sample.row_without_rate "LOAD001")
              eq_refl eq_refl eq_refl eq_refl) as (H & _).
  - intros r [<- | []]. reflexivity.
  - reflexivity.
  - reflexivity.
  - exact H.
Defined.

(** * Further properties of the handlers *)

(** ** Normalization *)

(** (X1) An identifier that is accepted is its own normalized form:
    normalizing twice is normalizing once, and the [mc_number] of a response
    can be sent back unchanged. *)
Theorem accepted_identifier_is_normal {U : Unicode} (mc : string) :
  Str.isdigit (Carrier.clean mc) = true ->
  Carrier.clean (Carrier.clean mc) = Carrier.clean mc.
Proof.
  intros H. apply clean_digits. now apply isdigit_chars.
Qed.

Lemma accepted_identifier_is_normal_witness :
  Str.isdigit (U := Sample.unicode_excerpt)
    (Carrier.clean (U := Sample.unicode_excerpt) " mc-123456 ") = true
  /\ Carrier.clean (U := Sample.unicode_excerpt)
       (Carrier.clean (U := Sample.unicode_excerpt) " mc-123456 ") = "123456".
Proof.
  split; [reflexivity|].
  rewrite (accepted_identifier_is_normal (U := Sample.unicode_excerpt)
             " mc-123456 " eq_refl).
  reflexivity.
Defined.

(** (X2) Letter case does not matter: two identifiers with the same
    upper-case form get the same outbound calls and the same result. *)
Theorem validation_ignores_case
  {B : Builtins} (w : Carrier.World) (mc1 mc2 : string) :
  Str.upper mc1 = Str.upper mc2 ->
  Carrier.validate_mc_number w mc1 = Carrier.validate_mc_number w mc2.
Proof.
  intros H. unfold Carrier.validate_mc_number, Carrier.clean. rewrite H.
  assert (E : (mc1 =? "")%string = (mc2 =? "")%string).
  { destruct (mc1 =? "")%string eqn:E1; destruct (mc2 =? "")%string eqn:E2;
      try reflexivity; exfalso.
    - apply String.eqb_eq in E1. apply String.eqb_neq in E2. subst mc1.
      apply E2. apply upper_empty. now rewrite <- H.
    - apply String.eqb_eq in E2. apply String.eqb_neq in E1. subst mc2.
      apply E1. apply upper_empty. now rewrite H. }
  now rewrite E.
Qed.

Lemma validation_ignores_case_witness :
  Str.upper (U := Sample.unicode_excerpt) "mc-123456"
  = Str.upper (U := Sample.unicode_excerpt) "Mc-123456"
  /\ Carrier.validate_mc_number (B := Sample.builtins)
       (Sample.registry_with Sample.active_carrier) "mc-123456"
     = Carrier.validate_mc_number (B := Sample.builtins)
         (Sample.registry_with Sample.active_carrier) "Mc-123456".
Proof.
  split; [reflexivity|].
  exact (validation_ignores_case (B := Sample.builtins)
           (Sample.registry_with Sample.active_carrier)
           "mc-123456" "Mc-123456" eq_refl).
Defined.

(** (X3) ASCII whitespace around the identifier does not matter: it
    normalizes to the same text, and for a non-empty identifier the outbound
    calls and the result are the same. *)
Theorem validation_ignores_surrounding_space
  {B : Builtins} (w : Carrier.World) (ws1 s ws2 : string) :
  all_space ws1 = true ->
  all_space ws2 = true ->
  s <> "" ->
  Carrier.clean (ws1 ++ s ++ ws2) = Carrier.clean s
  /\ Carrier.validate_mc_number w (ws1 ++ s ++ ws2)
     = Carrier.validate_mc_number w s.
Proof.
  intros H1 H2 Hs.
  pose proof (clean_surrounding_space ws1 s ws2 H1 H2) as Hc.
  split; [exact Hc|].
  unfold Carrier.validate_mc_number. rewrite Hc.
  assert (E1 : (s =? "")%string = false) by now apply String.eqb_neq.
  assert (E2 : (ws1 ++ s ++ ws2 =? "")%string = false).
  { apply String.eqb_neq. destruct ws1; cbn; [|discriminate].
    destruct s; [congruence | discriminate]. }
  now rewrite E1, E2.
Qed.

Lemma validation_ignores_surrounding_space_witness :
  all_space "  " = true
  /\ Carrier.validate_mc_number (B := Sample.builtins)
       (Sample.registry_with Sample.active_carrier) ("  " ++ "MC-123456" ++ " ")
     = Carrier.validate_mc_number (B := Sample.builtins)
         (Sample.registry_with Sample.active_carrier) "MC-123456".
Proof.
  split; [reflexivity|].
  destruct (validation_ignores_surrounding_space (B := Sample.builtins)
              (Sample.registry_with Sample.active_carrier)
              "  " "MC-123456" " " eq_refl eq_refl) as (_ & H);
    [discriminate | exact H].
Defined.

(** (X4) An ["MC-"] prefix (in any letter case) before digits is dropped:
    the call is the call for the digits alone. *)
Theorem mc_prefix_is_optional
  {B : Builtins} (w : Carrier.World) (p d : string) :
  Str.upper p = "MC-" ->
  Str.isdigit d = true ->
  Carrier.clean (p ++ d) = d
  /\ Carrier.validate_mc_number w (p ++ d) = Carrier.validate_mc_number w d.
Proof.
  intros Hp Hd.
  pose proof (isdigit_chars d Hd) as Ha.
  assert (Hc : Carrier.clean (p ++ d) = d).
  { unfold Carrier.clean.
    rewrite (upper_app p d (isdigit_start d Hd)), Hp, (upper_digits d Ha).
    unfold Str.replace.
    change ("MC-" ++ d) with ("" ++ "MC-" ++ d).
    rewrite (replace_from_mc_app d "" 0) by (cbn; lia).
    cbn [Str.replace_from append].
    fold (Str.replace d "MC-" "").
    rewrite (replace_without_M d (digits_without_M d Ha)).
    now apply strip_digits. }
  split; [exact Hc|].
  unfold Carrier.validate_mc_number. rewrite Hc, (clean_digits d Ha).
  assert (E1 : (d =? "")%string = false).
  { apply String.eqb_neq. now apply isdigit_nonempty. }
  assert (E2 : (p ++ d =? "")%string = false).
  { apply String.eqb_neq. destruct p; [discriminate Hp | discriminate]. }
  now rewrite E1, E2.
Qed.

Lemma mc_prefix_is_optional_witness :
  Str.upper (U := Sample.unicode_excerpt) "mc-" = "MC-"
  /\ Str.isdigit (U := Sample.unicode_excerpt) "123456" = true
  /\ Carrier.validate_mc_number (B := Sample.builtins)
       (Sample.registry_with Sample.active_carrier) ("mc-" ++ "123456")
     = Carrier.validate_mc_number (B := Sample.builtins)
         (Sample.registry_with Sample.active_carrier) "123456".
Proof.
  split; [reflexivity|]. split; [reflexivity|].
  destruct (mc_prefix_is_optional (B := Sample.builtins)
              (Sample.registry_with Sample.active_carrier)
              "mc-" "123456" eq_refl eq_refl) as (_ & H).
  exact H.
Defined.

(** ** What the carrier validator raises *)

Lemma py_get_raise (v : pyval) (k : string) (default : pyval) (e : exn) :
  py_get v k default = Raise e ->
  is_dict v = false /\ exists msg, e = AttributeError msg.
Proof.
  destruct v; cbn; intros H;
    try (injection H as <-; split; [reflexivity | eauto]).
  destruct (dict_lookup d k); discriminate H.
Qed.

Lemma py_get_not_dict (v : pyval) (k : string) (default : pyval) :
  is_dict v = false -> exists msg, py_get v k default = Raise (AttributeError msg).
Proof. destruct v; cbn; intros H; try discriminate H; eauto. Qed.

Lemma process_body_raise {B : Builtins} (c : string) (body : pyval) (e : exn) :
  Carrier.process_body c body = Raise e ->
  e = HTTPException 404 ("No carrier data found for MC number: " ++ c)
  \/ e = HTTPException 502 "Incomplete carrier data received from FMCSA API"
  \/ exists msg, e = AttributeError msg.
Proof.
  intros H.
  destruct (py_get body "content" (PDict [])) as [e0|content] eqn:Hc.
  { unfold Carrier.process_body in H. rewrite Hc in H. cbn [bind] in H.
    injection H as <-. apply py_get_raise in Hc as (_ & Hm). auto. }
  destruct (truthy content) eqn:Ht.
  2:{ unfold Carrier.process_body in H. rewrite Hc in H. cbn [bind] in H.
      rewrite Ht in H. cbn [negb] in H. injection H as <-. auto. }
  destruct (py_get content "carrier" (PDict [])) as [e0|section] eqn:Hs.
  { unfold Carrier.process_body in H. rewrite Hc in H. cbn [bind] in H.
    rewrite Ht in H. cbn [negb] in H. rewrite Hs in H. cbn [bind] in H.
    injection H as <-. apply py_get_raise in Hs as (_ & Hm). auto. }
  destruct (is_dict section) eqn:Hd.
  - destruct section; try discriminate Hd.
    rewrite (process_body_section c body content d Hc Ht Hs) in H.
    destruct (negb (truthy (name_of_section d)) || negb (truthy (field d "dotNumber"))).
    + injection H as <-. auto.
    + rewrite build_response_dict in H. discriminate H.
  - unfold Carrier.process_body in H. rewrite Hc in H. cbn [bind] in H.
    rewrite Ht in H. cbn [negb] in H. rewrite Hs in H. cbn [bind] in H.
    destruct (py_get_not_dict section "dbaName" (PStr "") Hd) as (msg & E).
    rewrite E in H. cbn [bind] in H. injection H as <-. eauto.
Qed.

Lemma process_outcome_raise {B : Builtins}
  (c : string) (o : Carrier.get_outcome) (e : exn) :
  Carrier.process_outcome c o = Raise e ->
  (exists code detail, e = HTTPException code detail /\ In code [404; 502; 504])
  \/ exists msg, e = AttributeError msg.
Proof.
  destruct o as [| cause |[code body]]; cbn.
  - intros H. injection H as <-. left. do 2 eexists. split; [reflexivity|cbn; auto].
  - intros H. injection H as <-. left. do 2 eexists. split; [reflexivity|cbn; auto].
  - destruct (code =? 404).
    { intros H. injection H as <-. left. do 2 eexists. split; [reflexivity|cbn; auto]. }
    destruct (code =? 401).
    { intros H. injection H as <-. left. do 2 eexists. split; [reflexivity|cbn; auto]. }
    destruct (code =? 200); cbn [negb].
    2:{ intros H. injection H as <-. left. do 2 eexists. split; [reflexivity|cbn; auto]. }
    destruct body as [body|].
    2:{ intros H. injection H as <-. left. do 2 eexists. split; [reflexivity|cbn; auto]. }
    intros H. apply process_body_raise in H as [-> | [-> | Hm]]; [left | left | right; exact Hm];
      do 2 eexists; (split; [reflexivity | cbn; auto]).
Qed.

Lemma validate_unconfigured {B : Builtins} (w : Carrier.World) (mc : string) :
  Carrier.key_configured w = false ->
  Carrier.validate_mc_number w mc
  = ([], Raise (HTTPException 500 "FMCSA API key not configured")).
Proof.
  intros H. unfold Carrier.validate_mc_number. now rewrite H.
Qed.

Lemma validate_raise_configured {B : Builtins}
  (w : Carrier.World) (mc : string) (e : exn) :
  Carrier.key_configured w = true ->
  snd (Carrier.validate_mc_number w mc) = Raise e ->
  (exists code detail, e = HTTPException code detail /\ In code [400; 404; 502; 504])
  \/ e = unexpected_error.
Proof.
  intros Hk. unfold Carrier.validate_mc_number. rewrite Hk. cbn [negb].
  destruct (mc =? "")%string.
  { cbn [snd]. intros H. injection H as <-. left.
    do 2 eexists. split; [reflexivity | cbn; auto]. }
  destruct (Str.isdigit (Carrier.clean mc)); cbn [negb snd].
  2:{ intros H. injection H as <-. left.
      do 2 eexists. split; [reflexivity | cbn; auto]. }
  destruct (Carrier.process_outcome _ _) as [e0|r] eqn:E; [|discriminate].
  apply process_outcome_raise in E as [(code & detail & -> & Hin) | (msg & ->)].
  - cbn [reraise_http]. intros H. injection H as <-. left.
    do 2 eexists. split; [reflexivity|]. cbn in Hin |- *. tauto.
  - cbn [reraise_http]. intros H. injection H as <-. right. reflexivity.
Qed.

(** (X5) Whatever the registry answers, a failed validation is an
    [HTTPException] whose status is 400, 404, 500, 502 or 504: no other
    exception leaves the handler or the route. *)
Theorem validation_failure_statuses
  {B : Builtins} (w : Carrier.World) (mc : string) (e : exn) :
  snd (Api.validate_carrier w mc) = Raise e ->
  exists code detail,
    e = HTTPException code detail /\ In code [400; 404; 500; 502; 504].
Proof.
  unfold Api.validate_carrier. intros H.
  destruct (Carrier.key_configured w) eqn:Hk.
  - apply (validate_raise_configured w mc e Hk) in H
      as [(code & detail & -> & Hin) | ->].
    + exists code, detail. split; [reflexivity|]. cbn in Hin |- *. tauto.
    + do 2 eexists. split; [reflexivity | cbn; auto].
  - rewrite (validate_unconfigured w mc Hk) in H. cbn [snd] in H.
    injection H as <-. do 2 eexists. split; [reflexivity | cbn; auto].
Qed.

Lemma validation_failure_statuses_witness :
  exists code detail,
    snd (Api.validate_carrier (B := Sample.builtins)
           (Sample.registry (Sample.ok (PList []))) "MC-123456")
    = Raise (HTTPException code detail)
    /\ In code [400; 404; 500; 502; 504].
Proof.
  destruct (validation_failure_statuses (B := Sample.builtins)
              (Sample.registry (Sample.ok (PList []))) "MC-123456"
              unexpected_error eq_refl) as (code & detail & E & Hin).
  exists code, detail. split; [|exact Hin].
  rewrite <- E. reflexivity.
Defined.

(** (X6) A loaded module has its key: start-up fails with [ValueError]
    exactly when the environment gives no key or an empty one, and in the
    world it returns otherwise no call fails with "FMCSA API key not
    configured". *)
Theorem loaded_module_has_key
  {B : Builtins} (environ_key : option string)
  (get : string -> Carrier.get_outcome) :
  (environ_key = None \/ environ_key = Some ""
   <-> Carrier.startup environ_key get
       = Raise (ValueError "FMCSA_API_KEY must be set in environment variables"))
  /\ (forall w,
        Carrier.startup environ_key get = Return w ->
        Carrier.FMCSA_API_KEY w = environ_key
        /\ forall mc,
             snd (Carrier.validate_mc_number w mc)
             <> Raise (HTTPException 500 "FMCSA API key not configured")).
Proof.
  split.
  - unfold Carrier.startup, Carrier.key_configured. cbn.
    destruct environ_key as [[|c k]|]; cbn; split; intros H;
      try reflexivity; try discriminate; auto.
    destruct H; discriminate.
  - intros w Hw. pose proof (startup_key_configured _ _ _ Hw) as Hk.
    split.
    + unfold Carrier.startup in Hw.
      destruct (Carrier.key_configured _); cbn [negb] in Hw; [|discriminate].
      injection Hw as <-. reflexivity.
    + intros mc H.
      apply (validate_raise_configured w mc _ Hk) in H
        as [(code & detail & E & Hin) | E].
      * injection E as <- _. cbn in Hin. intuition discriminate.
      * discriminate E.
Qed.

Lemma loaded_module_has_key_witness :
  exists w,
    Carrier.startup (Some "test-key") (fun _ => Carrier.Timeout) = Return w
    /\ snd (Carrier.validate_mc_number (B := Sample.builtins) w "")
       <> Raise (HTTPException 500 "FMCSA API key not configured").
Proof.
  eexists. split; [reflexivity|].
  destruct (loaded_module_has_key (B := Sample.builtins)
              (Some "test-key") (fun _ => Carrier.Timeout)) as (_ & H).
  destruct (H _ eq_refl) as (_ & Hmc). exact (Hmc "").
Defined.

(** (X7) A call makes at most one request, never a retry: a URL that was
    requested is the only one, and it is the base URL, a non-empty run of
    digits, and the key as [webKey]. *)
Theorem at_most_one_request
  {B : Builtins} (w : Carrier.World) (mc url : string) :
  In url (fst (Carrier.validate_mc_number w mc)) ->
  fst (Carrier.validate_mc_number w mc) = [url]
  /\ Carrier.key_configured w = true
  /\ exists digits,
       Str.isdigit digits = true
       /\ url = Carrier.FMCSA_BASE_URL ++ digits ++ "?webKey=" ++ Carrier.key_text w.
Proof.
  unfold Carrier.validate_mc_number.
  destruct (Carrier.key_configured w); cbn [negb fst]; [|intros []].
  destruct (mc =? "")%string; [intros []|].
  destruct (Str.isdigit (Carrier.clean mc)) eqn:Hd; cbn [negb fst]; [|intros []].
  intros [<- | []]. repeat split. exists (Carrier.clean mc). split; [exact Hd|reflexivity].
Qed.

Lemma at_most_one_request_witness :
  fst (Carrier.validate_mc_number (B := Sample.builtins)
         Sample.slow_registry "MC-123456")
  = ["https://mobile.fmcsa.dot.gov/qc/services/carriers/123456?webKey=test-key"].
Proof.
  destruct (at_most_one_request (B := Sample.builtins) Sample.slow_registry "MC-123456"
              "https://mobile.fmcsa.dot.gov/qc/services/carriers/123456?webKey=test-key")
    as (H & _); [left; reflexivity | exact H].
Defined.

(** (X8) A 200 answer whose JSON is not shaped as expected ends in the
    catch-all: when the body is not an object, when [content] is non-empty
    but not an object, or when [carrier] is present but not an object, the
    call fails with status 500 and the fixed message, which does not carry
    the text of the underlying [AttributeError]. *)
Theorem misshaped_body_is_unexpected_error
  {B : Builtins} (w : Carrier.World) (mc : string) (body : pyval) :
  Carrier.key_configured w = true ->
  Str.isdigit (Carrier.clean mc) = true ->
  Carrier.requests_get w (Carrier.url_of w (Carrier.clean mc))
  = Carrier.Received {| Carrier.status_code := 200; Carrier.json := Some body |} ->
  is_dict body = false
  \/ (exists d content,
        body = PDict d /\ dict_lookup d "content" = Some content
        /\ truthy content = true /\ is_dict content = false)
  \/ (exists d c section,
        body = PDict d /\ dict_lookup d "content" = Some (PDict c)
        /\ dict_lookup c "carrier" = Some section /\ is_dict section = false) ->
  snd (Carrier.validate_mc_number w mc) = Raise unexpected_error.
Proof.
  intros Hk Hd Hget Hshape.
  rewrite (validate_calls w mc Hk Hd). cbn [snd]. rewrite Hget. cbn.
  unfold Carrier.process_body.
  destruct Hshape as [Hb | [(d & content & -> & Hc & Ht & Hn)
                           | (d & c & section & -> & Hc & Hs & Hn)]].
  - destruct (py_get_not_dict body "content" (PDict []) Hb) as (msg & ->).
    reflexivity.
  - rewrite py_get_dict, Hc. cbn [bind]. rewrite Ht. cbn [negb].
    destruct (py_get_not_dict content "carrier" (PDict []) Hn) as (msg & ->).
    reflexivity.
  - rewrite py_get_dict, Hc. cbn [bind].
    assert (Ht : truthy (PDict c) = true) by (destruct c; [discriminate Hs | reflexivity]).
    rewrite Ht. cbn [negb]. rewrite py_get_dict, Hs. cbn [bind].
    destruct (py_get_not_dict section "dbaName" (PStr "") Hn) as (msg & ->).
    reflexivity.
Qed.

Lemma misshaped_body_is_unexpected_error_witness :
  snd (Carrier.validate_mc_number (B := Sample.builtins)
         (Sample.registry
            (Sample.ok (PDict [("content", PList [PDict [("carrier", PDict [])]])])))
         "MC-123456")
  = Raise (HTTPException 500
             "An unexpected error occurred while processing your request").
Proof.
  apply (misshaped_body_is_unexpected_error (B := Sample.builtins)
           (Sample.registry
              (Sample.ok (PDict [("content", PList [PDict [("carrier", PDict [])]])])))
           "MC-123456"
           (PDict [("content", PList [PDict [("carrier", PDict [])]])])
           eq_refl eq_refl eq_refl).
  right. left. do 2 eexists. repeat split.
Defined.

(** (X9) What every returned carrier response holds: [success] is true,
    [transfer_contact] is null, [carrier_id] and [dot_number] are the same
    text, the text of the registry's non-empty DOT number; [carrier_name]
    is the registry's non-empty name, the one the next steps quote; and
    [mc_number] is a non-empty run of digits. *)
Theorem carrier_response_invariants
  {B : Builtins} (w : Carrier.World) (mc : string)
  (log : list string) (r : Carrier.CarrierResponse) :
  Carrier.validate_mc_number w mc = (log, Return r) ->
  let c := Carrier.carrier (Carrier.data r) in
  Carrier.success r = true
  /\ Carrier.transfer_contact (Carrier.data r) = PNone
  /\ Carrier.carrier_id c = Carrier.dot_number c
  /\ Str.isdigit (Carrier.mc_number c) = true
  /\ truthy (Carrier.carrier_name c) = true
  /\ Carrier.next_steps (Carrier.data r) = Carrier.make_next_steps (Carrier.carrier_name c)
  /\ exists body cd,
       Carrier.requests_get w (Carrier.url_of w (Carrier.clean mc))
       = Carrier.Received {| Carrier.status_code := 200; Carrier.json := Some body |}
       /\ carrier_section body = Some (PDict cd)
       /\ Carrier.carrier_name c = name_of_section cd
       /\ truthy (field cd "dotNumber") = true
       /\ Carrier.dot_number c = py_str (field cd "dotNumber").
Proof.
  intros H.
  apply validate_return in H as (_ & _ & Hd & _ & body & Hget & Hb).
  apply process_body_return in Hb as (content & cd & Hc & _ & Hs & Hn & Hdot & Hb).
  rewrite build_response_dict in Hb. injection Hb as <-. cbn.
  repeat split; try assumption.
  exists body, cd. repeat split; try assumption.
  eapply gets_carrier_section; eauto using named_section_nonempty.
Qed.

Lemma carrier_response_invariants_witness :
  exists r,
    snd (Carrier.validate_mc_number (B := Sample.builtins)
           (Sample.registry_with Sample.active_carrier) "MC-123456") = Return r
    /\ Carrier.carrier_id (Carrier.carrier (Carrier.data r)) = "1234567"
    /\ Carrier.dot_number (Carrier.carrier (Carrier.data r)) = "1234567"
    /\ Carrier.success r = true.
Proof.
  eexists. split; [reflexivity|].
  destruct (carrier_response_invariants (B := Sample.builtins)
              (Sample.registry_with Sample.active_carrier) "MC-123456" _ _ eq_refl)
    as (Hs & _ & Hid & _).
  split; [rewrite Hid; reflexivity|]. split; [reflexivity | exact Hs].
Defined.

(** (X10) [status] and [status_reason] agree in every returned response: an
    inactive carrier always has a reason, a response without a reason is
    for an active carrier, and "Not Authorized to Operate" is only given to
    an inactive carrier.  An active carrier can still be out of service. *)
Theorem status_and_reason_agree
  {B : Builtins} (w : Carrier.World) (mc : string)
  (log : list string) (r : Carrier.CarrierResponse) :
  Carrier.validate_mc_number w mc = (log, Return r) ->
  let c := Carrier.carrier (Carrier.data r) in
  (Carrier.status c = "Active" \/ Carrier.status c = "Inactive")
  /\ (Carrier.status_reason c = None
      \/ Carrier.status_reason c = Some "Out of Service"
      \/ Carrier.status_reason c = Some "Not Authorized to Operate")
  /\ (Carrier.status c = "Inactive" -> Carrier.status_reason c <> None)
  /\ (Carrier.status_reason c = None -> Carrier.status c = "Active")
  /\ (Carrier.status_reason c = Some "Not Authorized to Operate" ->
      Carrier.status c = "Inactive").
Proof.
  intros H.
  apply validate_return in H as (_ & _ & _ & _ & body & _ & Hb).
  apply process_body_return in Hb as (content & cd & _ & _ & _ & _ & _ & Hb).
  rewrite build_response_dict in Hb. injection Hb as <-. cbn.
  destruct (eq_str (field cd "allowedToOperate") "Y");
    destruct (truthy (field cd "oosDate")); cbn;
    repeat split; auto; intros; congruence.
Qed.

Lemma status_and_reason_agree_witness :
  exists r,
    snd (Carrier.validate_mc_number (B := Sample.builtins)
           (Sample.registry_with Sample.oos_carrier) "MC-123456") = Return r
    /\ Carrier.status (Carrier.carrier (Carrier.data r)) = "Active"
    /\ Carrier.status_reason (Carrier.carrier (Carrier.data r)) = Some "Out of Service"
    /\ (Carrier.status (Carrier.carrier (Carrier.data r)) = "Inactive" ->
        Carrier.status_reason (Carrier.carrier (Carrier.data r)) <> None).
Proof.
  eexists. split; [reflexivity|].
  destruct (status_and_reason_agree (B := Sample.builtins)
              (Sample.registry_with Sample.oos_carrier) "MC-123456" _ _ eq_refl)
    as (_ & _ & Hinactive & _).
  split; [reflexivity|]. split; [reflexivity | exact Hinactive].
Defined.

(** ** What the load lookup raises *)

Lemma item_raise (ld : list (string * pyval)) (k : string) (e : exn) :
  Loads.item ld k = Raise e -> exists msg, e = KeyError msg.
Proof.
  unfold Loads.item. destruct (dict_lookup ld k); intros H; [discriminate|].
  injection H as <-. eauto.
Qed.

Lemma py_float_raise {B : Builtins} (v : pyval) (e : exn) :
  py_float v = Raise e ->
  (exists msg, e = ValueError msg) \/ (exists msg, e = TypeError msg).
Proof.
  destruct v; cbn; intros H; try discriminate H;
    try (injection H as <-; right; eauto).
  destruct (float_of_str s); [discriminate|]. injection H as <-. left. eauto.
Qed.

Lemma process_row_raise {B : Builtins}
  (cols : list string) (row : list pyval) (e : exn) :
  Loads.process_row cols row = Raise e ->
  (exists detail, e = HTTPException 500 detail) \/ (exists msg, e = KeyError msg).
Proof.
  unfold Loads.process_row.
  destruct (Loads.missing_fields (Loads.to_dict cols row)).
  2:{ intros H. injection H as <-. left. eauto. }
  destruct (Loads.build_details (Loads.to_dict cols row)) as [e0|r] eqn:E;
    [|discriminate].
  assert (Hk : (exists msg, e0 = KeyError msg)
               \/ (exists msg, e0 = ValueError msg)
               \/ (exists msg, e0 = TypeError msg)).
  { unfold Loads.build_details in E.
    repeat match type of E with
           | bind ?x _ = _ =>
               let Hx := fresh "Hx" in
               destruct x eqn:Hx; cbn [bind] in E;
               [ injection E as <-;
                 first [ apply item_raise in Hx; auto
                       | apply py_float_raise in Hx; tauto ]
               | ]
           end.
    discriminate E. }
  destruct Hk as [(msg & ->) | [(msg & ->) | (msg & ->)]]; intros H;
    injection H as <-; eauto.
Qed.

Lemma process_frame_raise {B : Builtins}
  (df : Loads.DataFrame) (ref : string) (e : exn) :
  Loads.process_frame df ref = Raise e ->
  (exists code detail, e = HTTPException code detail /\ In code [400; 404; 500])
  \/ (exists msg, e = KeyError msg).
Proof.
  unfold Loads.process_frame.
  destruct (Str.startswith ref "LOAD"); cbn [negb].
  2:{ intros H. injection H as <-. left. do 2 eexists. split; [reflexivity | cbn; auto]. }
  unfold Loads.select.
  destruct (Loads.column_index (Loads.columns df) "reference_number"); cbn [bind].
  2:{ intros H. injection H as <-. right. eauto. }
  destruct (filter _ (Loads.rows df)) as [|row rest].
  { intros H. injection H as <-. left. do 2 eexists. split; [reflexivity | cbn; auto]. }
  intros H. apply process_row_raise in H as [(detail & ->) | Hk]; [left | right; exact Hk].
  do 2 eexists. split; [reflexivity | cbn; auto].
Qed.

(** (X11) A failed load lookup is an [HTTPException] whose status is 400,
    404, 500 or 503, and 503 is raised exactly when the dataset file is
    missing, empty or unparseable: a dataset that was read never gives 503,
    whatever it holds. *)
Theorem load_failure_statuses
  {B : Builtins} (w : Loads.World) (ref : string) (e : exn) :
  snd (Api.get_load w ref) = Raise e ->
  exists code detail,
    e = HTTPException code detail
    /\ In code [400; 404; 500; 503]
    /\ (code = 503 <->
        Loads.csv_exists w = false
        \/ Loads.read_csv w = Loads.EmptyDataError
        \/ Loads.read_csv w = Loads.ParserError).
Proof.
  unfold Api.get_load, Loads.get_load_details.
  destruct (Loads.csv_exists w); cbn [negb snd].
  2:{ intros H. injection H as <-. do 2 eexists.
      split; [reflexivity|]. split; [cbn; auto | tauto]. }
  destruct (Loads.read_csv w) as [| | msg | df] eqn:Hr.
  - cbn. intros H. injection H as <-. do 2 eexists.
    split; [reflexivity|]. split; [cbn; auto | tauto].
  - cbn. intros H. injection H as <-. do 2 eexists.
    split; [reflexivity|]. split; [cbn; auto | tauto].
  - cbn. intros H. injection H as <-. do 2 eexists.
    split; [reflexivity|]. split; [cbn; auto|].
    split; [discriminate | intros [? | [? | ?]]; discriminate].
  - destruct (Loads.process_frame df ref) as [e0|r] eqn:E; [|discriminate].
    apply process_frame_raise in E as [(code & detail & -> & Hin) | (msg & ->)];
      cbn [reraise_http]; intros H; injection H as <-.
    + exists code, detail. split; [reflexivity|].
      split; [cbn in Hin |- *; tauto|].
      split.
      * intros ->. cbn in Hin. exfalso. intuition discriminate.
      * intros [? | [? | ?]]; discriminate.
    + do 2 eexists. split; [reflexivity|]. split; [cbn; auto|].
      split; [discriminate | intros [? | [? | ?]]; discriminate].
Qed.

Lemma load_failure_statuses_witness :
  exists code detail,
    snd (Api.get_load (B := Sample.builtins) Sample.empty_file "LOAD001")
    = Raise (HTTPException code detail)
    /\ code = 503.
Proof.
  destruct (load_failure_statuses (B := Sample.builtins) Sample.empty_file "LOAD001"
              (HTTPException 503 "Load data file is empty") eq_refl)
    as (code & detail & E & _ & H503).
  exists code, detail. split; [rewrite <- E; reflexivity|].
  apply H503. right. left. reflexivity.
Defined.

(** ** Columns and selection *)

Lemma column_index_in (cols : list string) (k : string) :
  In k cols -> exists i, Loads.column_index cols k = Some i.
Proof.
  induction cols as [|c cols IH]; [intros []|].
  intros H. cbn [Loads.column_index].
  destruct (c =? k)%string eqn:E; [eauto|].
  destruct H as [-> | H]; [now rewrite String.eqb_refl in E|].
  destruct (IH H) as (i & ->). cbn. eauto.
Qed.

Lemma column_index_not_in (cols : list string) (k : string) :
  ~ In k cols -> Loads.column_index cols k = None.
Proof.
  induction cols as [|c cols IH]; [reflexivity|].
  intros H. cbn [Loads.column_index].
  destruct (c =? k)%string eqn:E.
  - apply String.eqb_eq in E. exfalso. apply H. now left.
  - rewrite IH; [reflexivity|]. intros Hin. apply H. now right.
Qed.

Lemma filter_none {A : Type} (p : A -> bool) (l : list A) :
  (forall x, In x l -> p x = false) -> filter p l = [].
Proof.
  induction l as [|x l IH]; [reflexivity|].
  intros H. cbn [filter]. rewrite (H x (or_introl eq_refl)).
  apply IH. intros y Hy. apply H. now right.
Qed.

(** (X12) When the dataset has a [reference_number] column and no row whose
    cell there equals the queried text, a reference number that starts with
    ["LOAD"] gets status 404 with the reference in the message; this covers
    a dataset with a header and no rows. *)
Theorem unknown_reference_is_404
  {B : Builtins} (w : Loads.World) (ref : string) (df : Loads.DataFrame) :
  Loads.csv_exists w = true ->
  Loads.read_csv w = Loads.Frame df ->
  Str.startswith ref "LOAD" = true ->
  In "reference_number" (Loads.columns df) ->
  (forall row, In row (Loads.rows df) ->
               row_matches (Loads.columns df) row ref = false) ->
  Loads.get_load_details w ref
  = ([Loads.PathExists; Loads.ReadCsv],
     Raise (HTTPException 404 ("Load not found: " ++ ref))).
Proof.
  intros He Hr Hp Hcol Hnone.
  rewrite (get_load_details_frame w ref df He Hr).
  unfold Loads.process_frame, Loads.select. rewrite Hp. cbn [negb].
  destruct (column_index_in _ _ Hcol) as (i & Hi). rewrite Hi. cbn [bind].
  rewrite filter_none; [reflexivity|].
  intros row Hrow.
  rewrite <- (row_matches_nth (Loads.columns df) ref row i Hi).
  now apply Hnone.
Qed.

Lemma unknown_reference_is_404_witness :
  Loads.get_load_details (B := Sample.builtins)
    (Sample.file_of [Sample.complete_row "LOAD001"]) "LOAD999"
  = ([Loads.PathExists; Loads.ReadCsv],
     Raise (HTTPException 404 "Load not found: LOAD999")).
Proof.
  apply (unknown_reference_is_404 (B := Sample.builtins)
           (Sample.file_of [Sample.complete_row "LOAD001"]) "LOAD999"
           {| Loads.columns := Sample.loads_columns;
              Loads.rows := [Sample.complete_row "LOAD001"] |}
           eq_refl eq_refl eq_refl).
  - left. reflexivity.
  - intros row [<- | []]. reflexivity.
Defined.

(** (X13) A dataset without a [reference_number] column makes every
    well-formed lookup fail with status 500 and the fixed message of the
    catch-all, not with 404 or 503. *)
Theorem missing_column_is_unexpected_error
  {B : Builtins} (w : Loads.World) (ref : string) (df : Loads.DataFrame) :
  Loads.csv_exists w = true ->
  Loads.read_csv w = Loads.Frame df ->
  Str.startswith ref "LOAD" = true ->
  ~ In "reference_number" (Loads.columns df) ->
  Loads.get_load_details w ref
  = ([Loads.PathExists; Loads.ReadCsv], Raise unexpected_error).
Proof.
  intros He Hr Hp Hcol.
  rewrite (get_load_details_frame w ref df He Hr).
  unfold Loads.process_frame, Loads.select. rewrite Hp. cbn [negb].
  rewrite (column_index_not_in _ _ Hcol). reflexivity.
Qed.

Lemma missing_column_is_unexpected_error_witness :
  Loads.get_load_details (B := Sample.builtins)
    {| Loads.csv_exists := true;
       Loads.read_csv :=
         Loads.Frame {| Loads.columns := ["ref"; "origin"];
                        Loads.rows := [[PStr "LOAD001"; PStr "Dallas, TX"]] |} |}
    "LOAD001"
  = ([Loads.PathExists; Loads.ReadCsv],
     Raise (HTTPException 500
              "An unexpected error occurred while processing your request")).
Proof.
  apply (missing_column_is_unexpected_error (B := Sample.builtins)
           {| Loads.csv_exists := true;
              Loads.read_csv :=
                Loads.Frame {| Loads.columns := ["ref"; "origin"];
                               Loads.rows := [[PStr "LOAD001"; PStr "Dallas, TX"]] |} |}
           "LOAD001"
           {| Loads.columns := ["ref"; "origin"];
              Loads.rows := [[PStr "LOAD001"; PStr "Dallas, TX"]] |}
           eq_refl eq_refl eq_refl).
  intros [H | [H | []]]; discriminate H.
Defined.

(** (X14) The first matching row decides: the rows before it (which do not
    match) and all rows after it (matching or not) have no effect, the
    result is the one for a dataset holding that row alone. *)
Theorem first_match_decides
  {B : Builtins} (w : Loads.World) (ref : string) (df : Loads.DataFrame)
  (before after : list (list pyval)) (row : list pyval) :
  Loads.csv_exists w = true ->
  Loads.read_csv w = Loads.Frame df ->
  Loads.rows df = (before ++ row :: after)%list ->
  (forall r, In r before -> row_matches (Loads.columns df) r ref = false) ->
  row_matches (Loads.columns df) row ref = true ->
  Loads.get_load_details w ref
  = Loads.get_load_details
      {| Loads.csv_exists := true;
         Loads.read_csv :=
           Loads.Frame {| Loads.columns := Loads.columns df; Loads.rows := [row] |} |}
      ref.
Proof.
  intros He Hr Hrows Hbefore Hrow.
  rewrite (get_load_details_frame w ref df He Hr).
  rewrite (get_load_details_frame
             {| Loads.csv_exists := true;
                Loads.read_csv :=
                  Loads.Frame {| Loads.columns := Loads.columns df;
                                 Loads.rows := [row] |} |}
             ref
             {| Loads.columns := Loads.columns df; Loads.rows := [row] |}
             eq_refl eq_refl).
  destruct (select_first_match df ref before after row Hrows Hbefore Hrow)
    as (rest & Hsel).
  destruct (select_first_match
              {| Loads.columns := Loads.columns df; Loads.rows := [row] |}
              ref [] [] row eq_refl (fun r (H : In r []) => match H with end) Hrow)
    as (rest' & Hsel').
  unfold Loads.process_frame. rewrite Hsel, Hsel'. reflexivity.
Qed.

Lemma first_match_decides_witness :
  Loads.get_load_details (B := Sample.builtins)
    (Sample.file_of (Sample.complete_row "LOAD002" :: Sample.duplicated_rows)) "LOAD001"
  = Loads.get_load_details (B := Sample.builtins)
      (Sample.file_of [Sample.complete_row "LOAD001"]) "LOAD001".
Proof.
  apply (first_match_decides (B := Sample.builtins)
           (Sample.file_of (Sample.complete_row "LOAD002" :: Sample.duplicated_rows))
           "LOAD001"
           {| Loads.columns := Sample.loads_columns;
              Loads.rows := Sample.complete_row "LOAD002" :: Sample.duplicated_rows |}
           [Sample.complete_row "LOAD002"] [Sample.row_without_rate "LOAD001"]
           (Sample.complete_row "LOAD001") eq_refl eq_refl eq_refl).
  - intros r [<- | []]. reflexivity.
  - reflexivity.
Defined.

(** ** Complete rows *)

Lemma complete_lookup (cols : list string) (row : list pyval) (f : string) :
  incomplete cols row = false ->
  In f Loads.required_fields ->
  dict_lookup (Loads.to_dict cols row) f = Some (field (Loads.to_dict cols row) f)
  /\ Loads.pd_isna (field (Loads.to_dict cols row) f) = false.
Proof.
  intros Hc Hin. unfold incomplete in Hc.
  assert (H : match dict_lookup (Loads.to_dict cols row) f with
              | Some v => Loads.pd_isna v
              | None => true
              end = false).
  { destruct (match dict_lookup (Loads.to_dict cols row) f with
              | Some v => Loads.pd_isna v
              | None => true
              end) eqn:E; [|reflexivity].
    assert (X : existsb
                  (fun f0 => match dict_lookup (Loads.to_dict cols row) f0 with
                             | Some v => Loads.pd_isna v
                             | None => true
                             end) Loads.required_fields = true).
    { apply existsb_exists. exists f. split; assumption. }
    congruence. }
  unfold field. destruct (dict_lookup (Loads.to_dict cols row) f);
    [split; [reflexivity | exact H] | discriminate H].
Qed.

Lemma complete_missing (cols : list string) (row : list pyval) :
  incomplete cols row = false ->
  Loads.missing_fields (Loads.to_dict cols row) = [].
Proof.
  intros Hc. unfold Loads.missing_fields. apply filter_none.
  intros f Hin. destruct (complete_lookup cols row f Hc Hin) as (-> & Hna).
  exact Hna.
Qed.

Lemma item_complete (cols : list string) (row : list pyval) (f : string) :
  incomplete cols row = false ->
  In f Loads.required_fields ->
  Loads.item (Loads.to_dict cols row) f = Return (field (Loads.to_dict cols row) f).
Proof.
  intros Hc Hin. unfold Loads.item.
  destruct (complete_lookup cols row f Hc Hin) as (-> & _). reflexivity.
Qed.

Lemma matched_reference (cols : list string) (row : list pyval) (ref : string) :
  row_matches cols row ref = true ->
  dict_lookup (Loads.to_dict cols row) "reference_number" = Some (PStr ref).
Proof.
  unfold row_matches.
  destruct (dict_lookup (Loads.to_dict cols row) "reference_number"); [|discriminate].
  intros H. apply eq_str_true in H. now subst.
Qed.

Ltac required_field := cbn; tauto.

(** (X15) When the first matching row is complete, the lookup returns its
    six fields: the queried reference number, the text of the four string
    cells, and the rate as a number.  When the rate cell cannot be converted
    to a number, the call fails instead with status 500 and the message of
    the conversion error. *)
Theorem complete_first_match_is_returned
  {B : Builtins} (w : Loads.World) (ref : string) (df : Loads.DataFrame)
  (before after : list (list pyval)) (row : list pyval) :
  Loads.csv_exists w = true ->
  Loads.read_csv w = Loads.Frame df ->
  Str.startswith ref "LOAD" = true ->
  Loads.rows df = (before ++ row :: after)%list ->
  (forall r, In r before -> row_matches (Loads.columns df) r ref = false) ->
  row_matches (Loads.columns df) row ref = true ->
  incomplete (Loads.columns df) row = false ->
  let load_data := Loads.to_dict (Loads.columns df) row in
  (forall x,
     py_float (field load_data "rate") = Return x ->
     snd (Loads.get_load_details w ref)
     = Return {| Loads.success := true;
                 Loads.data :=
                   Some {| Loads.reference_number := ref;
                           Loads.origin := py_str (field load_data "origin");
                           Loads.destination := py_str (field load_data "destination");
                           Loads.equipment_type := py_str (field load_data "equipment_type");
                           Loads.rate := x;
                           Loads.commodity := py_str (field load_data "commodity") |};
                 Loads.error := None |})
  /\ (forall e,
        py_float (field load_data "rate") = Raise e ->
        exists msg,
          (e = ValueError msg \/ e = TypeError msg)
          /\ snd (Loads.get_load_details w ref)
             = Raise (HTTPException 500 ("Error processing load data: " ++ msg))).
Proof.
  intros He Hr Hp Hrows Hbefore Hrow Hc load_data.
  rewrite (get_load_details_frame w ref df He Hr). cbn [snd].
  destruct (select_first_match df ref before after row Hrows Hbefore Hrow)
    as (rest & Hsel).
  unfold Loads.process_frame. rewrite Hp, Hsel. cbn [negb bind].
  unfold Loads.process_row. rewrite (complete_missing _ _ Hc).
  unfold Loads.build_details.
  rewrite !(item_complete _ _ _ Hc) by required_field.
  cbn [bind]. fold load_data.
  assert (Eref : field load_data "reference_number" = PStr ref).
  { unfold field, load_data. now rewrite (matched_reference _ _ _ Hrow). }
  split.
  - intros x Hx. rewrite Hx. cbn [bind]. rewrite Eref. reflexivity.
  - intros e Hx. rewrite Hx. cbn [bind].
    apply py_float_raise in Hx as [(msg & ->) | (msg & ->)];
      exists msg; (split; [auto | reflexivity]).
Qed.

Lemma complete_first_match_is_returned_witness :
  snd (Loads.get_load_details (B := Sample.builtins)
         (Sample.file_of [Sample.complete_row "LOAD001"]) "LOAD001")
  = Return {| Loads.success := true;
              Loads.data :=
                Some {| Loads.reference_number := "LOAD001";
                        Loads.origin := "Dallas, TX";
                        Loads.destination := "Atlanta, GA";
                        Loads.equipment_type := "Dry Van";
                        Loads.rate := S754_finite false 2500 0;
                        Loads.commodity := "Paper" |};
              Loads.error := None |}.
Proof.
  destruct (complete_first_match_is_returned (B := Sample.builtins)
              (Sample.file_of [Sample.complete_row "LOAD001"]) "LOAD001"
              {| Loads.columns := Sample.loads_columns;
                 Loads.rows := [Sample.complete_row "LOAD001"] |}
              [] [] (Sample.complete_row "LOAD001")
              eq_refl eq_refl eq_refl eq_refl
              (fun r (H : In r []) => match H with end) eq_refl eq_refl)
    as (H & _).
  exact (H _ eq_refl).
Defined.

Lemma missing_incomplete (cols : list string) (row : list pyval) :
  Loads.missing_fields (Loads.to_dict cols row) = [] ->
  incomplete cols row = false.
Proof.
  intros H. destruct (incomplete cols row) eqn:E; [|reflexivity].
  now apply incomplete_missing in E.
Qed.

Lemma select_head
  (df : Loads.DataFrame) (ref : string) (row : list pyval) (rest : list (list pyval)) :
  Loads.select df ref = Return (row :: rest) ->
  In row (Loads.rows df) /\ row_matches (Loads.columns df) row ref = true.
Proof.
  unfold Loads.select.
  destruct (Loads.column_index (Loads.columns df) "reference_number") as [i|] eqn:Hi;
    [|discriminate].
  intros H. injection H as H.
  assert (Hin : In row (filter (fun row0 => eq_str (nth i row0 PNone) ref)
                          (Loads.rows df))).
  { rewrite H. now left. }
  apply filter_In in Hin as (Hin & Hm). split; [exact Hin|].
  now rewrite (row_matches_nth (Loads.columns df) ref row i Hi).
Qed.

(** (X16) A lookup only returns what was asked for: the reference number of
    a returned record is the queried text, which starts with ["LOAD"], and
    the record comes from a dataset row that matches and is complete. *)
Theorem returned_load_is_the_queried_one
  {B : Builtins} (w : Loads.World) (ref : string) (r : Loads.LoadResponse) :
  snd (Loads.get_load_details w ref) = Return r ->
  Str.startswith ref "LOAD" = true
  /\ exists details df row,
       Loads.data r = Some details
       /\ Loads.reference_number details = ref
       /\ Loads.read_csv w = Loads.Frame df
       /\ In row (Loads.rows df)
       /\ row_matches (Loads.columns df) row ref = true
       /\ incomplete (Loads.columns df) row = false.
Proof.
  intros H.
  apply get_load_details_return in H as (df & Hr & H).
  apply process_frame_return in H as (Hp & row & rest & Hsel & H).
  apply process_row_return in H as (Hm & H).
  apply select_head in Hsel as (Hin & Hrow).
  pose proof (missing_incomplete _ _ Hm) as Hc.
  split; [exact Hp|].
  unfold Loads.build_details in H.
  rewrite !(item_complete _ _ _ Hc) in H by required_field.
  cbn [bind] in H.
  destruct (py_float (field (Loads.to_dict (Loads.columns df) row) "rate"));
    cbn [bind] in H; [discriminate|].
  injection H as <-. eexists _, df, row. cbn.
  repeat split; try assumption.
  unfold field. now rewrite (matched_reference _ _ _ Hrow).
Qed.

Lemma returned_load_is_the_queried_one_witness :
  exists r details,
    snd (Loads.get_load_details (B := Sample.builtins)
           (Sample.file_of Sample.duplicated_rows) "LOAD001") = Return r
    /\ Loads.data r = Some details
    /\ Loads.reference_number details = "LOAD001".
Proof.
  destruct (returned_load_is_the_queried_one (B := Sample.builtins)
              (Sample.file_of Sample.duplicated_rows) "LOAD001" _ eq_refl)
    as (_ & details & df & row & Hd & Href & _).
  eexists _, details. split; [reflexivity|]. split; [exact Hd | exact Href].
Defined.

(** (X17) The list of missing fields holds required fields only, each at
    most once and in their fixed order, and for a row that matched the
    query it never holds [reference_number]. *)
Theorem missing_fields_of_matched_row
  (cols : list string) (row : list pyval) (ref : string) :
  row_matches cols row ref = true ->
  ~ In "reference_number" (Loads.missing_fields (Loads.to_dict cols row))
  /\ (forall f, In f (Loads.missing_fields (Loads.to_dict cols row)) ->
                In f Loads.required_fields)
  /\ NoDup (Loads.missing_fields (Loads.to_dict cols row)).
Proof.
  intros Hrow. split; [|split].
  - unfold Loads.missing_fields. rewrite filter_In.
    rewrite (matched_reference _ _ _ Hrow). cbn. intros [_ H]. discriminate H.
  - intros f Hin. unfold Loads.missing_fields in Hin.
    now apply filter_In in Hin.
  - unfold Loads.missing_fields. apply NoDup_filter.
    unfold Loads.required_fields.
    repeat (constructor; [cbn; intuition discriminate|]). constructor.
Qed.

Lemma missing_fields_of_matched_row_witness :
  Loads.missing_fields
    (Loads.to_dict Sample.loads_columns (Sample.row_without_rate "LOAD001"))
  = ["rate"]
  /\ ~ In "reference_number"
       (Loads.missing_fields
          (Loads.to_dict Sample.loads_columns (Sample.row_without_rate "LOAD001"))).
Proof.
  split; [reflexivity|].
  destruct (missing_fields_of_matched_row Sample.loads_columns
              (Sample.row_without_rate "LOAD001") "LOAD001" eq_refl) as (H & _).
  exact H.
Defined.

(** ** What a status tells the caller *)

Lemma received_not_504 {B : Builtins}
  (c : string) (resp : Carrier.Response) (detail : string) :
  Carrier.process_outcome c (Carrier.Received resp)
  <> Raise (HTTPException 504 detail).
Proof.
  destruct resp as [code body]. cbn.
  destruct (code =? 404); [discriminate|].
  destruct (code =? 401); [discriminate|].
  destruct (code =? 200); cbn [negb]; [|discriminate].
  destruct body as [body|]; [|discriminate].
  intros H. apply process_body_raise in H as [H | [H | (msg & H)]]; discriminate H.
Qed.

(** (X18) In a loaded module, status 400 is raised exactly when the
    identifier does not normalize to digits, so never because of what the
    registry answers; and status 504 is raised exactly when the identifier
    is well formed and the request to the registry timed out. *)
Theorem status_400_and_504
  {B : Builtins} (w : Carrier.World) (mc : string) :
  Carrier.key_configured w = true ->
  ((exists detail,
      snd (Carrier.validate_mc_number w mc) = Raise (HTTPException 400 detail))
   <-> Str.isdigit (Carrier.clean mc) = false)
  /\ ((exists detail,
         snd (Carrier.validate_mc_number w mc) = Raise (HTTPException 504 detail))
      <-> Str.isdigit (Carrier.clean mc) = true
          /\ Carrier.requests_get w (Carrier.url_of w (Carrier.clean mc))
             = Carrier.Timeout).
Proof.
  intros Hk.
  destruct (Str.isdigit (Carrier.clean mc)) eqn:Hd.
  - rewrite (validate_calls w mc Hk Hd). cbn [snd]. split.
    + split; [|discriminate]. intros (detail & H).
      destruct (Carrier.process_outcome _ _) as [e|r] eqn:E; [|discriminate H].
      apply process_outcome_raise in E as [(code & d & -> & Hin) | (msg & ->)];
        cbn [reraise_http] in H; [|discriminate H].
      injection H as -> _. cbn in Hin. exfalso. intuition discriminate.
    + split.
      * intros (detail & H). split; [reflexivity|].
        destruct (Carrier.requests_get w _) as [| cause | resp] eqn:Ho;
          [reflexivity | discriminate H |].
        exfalso.
        destruct (Carrier.process_outcome (Carrier.clean mc) (Carrier.Received resp))
          as [e|r] eqn:E; [|discriminate H].
        destruct e; cbn [reraise_http] in H; try discriminate H.
        injection H as -> ->. exact (received_not_504 _ _ _ E).
      * intros (_ & ->). eexists. reflexivity.
  - destruct (validate_rejects w mc Hk Hd) as (detail & E). rewrite E. cbn [snd].
    split.
    + split; [reflexivity | eauto].
    + split; [intros (d & H); discriminate H | intros (H & _); discriminate H].
Qed.

Lemma status_400_and_504_witness :
  Carrier.key_configured Sample.slow_registry = true
  /\ (exists detail,
        snd (Carrier.validate_mc_number (B := Sample.builtins)
               Sample.slow_registry "MC-123456")
        = Raise (HTTPException 504 detail))
  /\ exists detail,
       snd (Carrier.validate_mc_number (B := Sample.builtins)
              Sample.slow_registry "MC-12A456")
       = Raise (HTTPException 400 detail).
Proof.
  split; [reflexivity|]. split.
  - destruct (status_400_and_504 (B := Sample.builtins)
                Sample.slow_registry "MC-123456" eq_refl) as (_ & H).
    apply H. split; reflexivity.
  - destruct (status_400_and_504 (B := Sample.builtins)
                Sample.slow_registry "MC-12A456" eq_refl) as (H & _).
    apply H. reflexivity.
Defined.
